(** * readxl: cell and column types of the xls reader (src/CellType.h)

    A shallow embedding of [CellType.h]: the two enumerations and the cast
    between them, the date-format test on format identifiers, the parser of
    user column types and its printer, the classifier of libxls cell records,
    the test on format strings, the maker of empty columns and the filter
    that removes skipped columns. *)

From Stdlib Require Import ZArith Lia Bool Ascii SpecFloat.
From stdpp Require Import base decidable option list strings pretty gmap.

Local Open Scope Z_scope.

(** ** Enumerations *)

(** [enum CellType], lines 8-13. *)
Inductive CellType : Set :=
| CELL_BLANK
| CELL_DATE
| CELL_NUMERIC
| CELL_TEXT.

(** [enum ColType], lines 17-24. *)
Inductive ColType : Set :=
| COL_BLANK
| COL_DATE
| COL_NUMERIC
| COL_TEXT
| COL_LIST
| COL_SKIP.

#[global] Instance CellType_eq_dec : EqDecision CellType.
Proof. solve_decision. Defined.

#[global] Instance ColType_eq_dec : EqDecision ColType.
Proof. solve_decision. Defined.

(** The value C++ gives each enumerator: no initialiser is written, so the
    enumerators count up from zero in declaration order. *)
Definition CellType_ord (c : CellType) : Z :=
  match c with
  | CELL_BLANK => 0
  | CELL_DATE => 1
  | CELL_NUMERIC => 2
  | CELL_TEXT => 3
  end.

Definition ColType_ord (t : ColType) : Z :=
  match t with
  | COL_BLANK => 0
  | COL_DATE => 1
  | COL_NUMERIC => 2
  | COL_TEXT => 3
  | COL_LIST => 4
  | COL_SKIP => 5
  end.

(** The enumerator of [ColType] that carries a given value, if any. *)
Definition ColType_of_ord (z : Z) : option ColType :=
  if z =? 0 then Some COL_BLANK
  else if z =? 1 then Some COL_DATE
  else if z =? 2 then Some COL_NUMERIC
  else if z =? 3 then Some COL_TEXT
  else if z =? 4 then Some COL_LIST
  else if z =? 5 then Some COL_SKIP
  else None.

(** [as_ColType], lines 29-31: [(ColType) cell] keeps the integer value of
    [cell] and reads it as a [ColType].  The [default] branch stands for a
    value that names no enumerator; [as_ColType_is_cast] shows that it is
    never taken. *)
Definition as_ColType (cell : CellType) : ColType :=
  default COL_BLANK (ColType_of_ord (CellType_ord cell)).

(** ** Date formats *)

(** [std::set<int>::count]: 1 for a member, 0 otherwise. *)
Definition set_count (custom : gset Z) (id : Z) : Z :=
  if decide (id ∈ custom) then 1 else 0.

(** [isDateTime], lines 123-140. *)
Definition isDateTime (id : Z) (custom : gset Z) : bool :=
  if ((14 <=? id) && (id <=? 22)) ||
     ((27 <=? id) && (id <=? 36)) ||
     ((45 <=? id) && (id <=? 47)) ||
     ((50 <=? id) && (id <=? 58)) ||
     ((71 <=? id) && (id <=? 81))
  then true
  else if id <? 164 then false
  else 0 <? set_count custom id.

(** The five ranges of built-in date and time formats, as a proposition. *)
Definition builtin_date_range (f : Z) : Prop :=
  14 <= f <= 22 \/ 27 <= f <= 36 \/ 45 <= f <= 47 \/
  50 <= f <= 58 \/ 71 <= f <= 81.

#[global] Instance builtin_date_range_dec (f : Z) : Decision (builtin_date_range f).
Proof. unfold builtin_date_range. apply _. Defined.

(** ** Column types given by the user *)

(** What a call through Rcpp yields: the returned value, or the message of
    the exception that [Rcpp::stop] throws. *)
Inductive Rcpp_result (A : Type) : Type :=
| Ok (value : A)
| Stop (message : string).

Arguments Ok {A} value.
Arguments Stop {A} message.

(** The text of [Rcpp::stop("Unknown type '%s' at position %i", type, pos)]. *)
Definition unknown_type_message (type : string) (pos : nat) : string :=
  "Unknown type '" +:+ type +:+ "' at position " +:+ pretty pos.

(** The loop of [colTypeStrings], lines 39-56: [x] is what is left of the
    input from index [i] on, [types] is the vector filled so far, and
    [push_back] appends at the end. *)
Fixpoint colTypeStrings_loop (i : nat) (x : list string) (types : list ColType)
  : Rcpp_result (list ColType) :=
  match x with
  | [] => Ok types
  | type :: rest =>
      if String.eqb type "blank" then
        colTypeStrings_loop (S i) rest (types ++ [COL_BLANK])
      else if String.eqb type "date" then
        colTypeStrings_loop (S i) rest (types ++ [COL_DATE])
      else if String.eqb type "numeric" then
        colTypeStrings_loop (S i) rest (types ++ [COL_NUMERIC])
      else if String.eqb type "text" then
        colTypeStrings_loop (S i) rest (types ++ [COL_TEXT])
      else if String.eqb type "list" then
        colTypeStrings_loop (S i) rest (types ++ [COL_LIST])
      else if String.eqb type "skip" then
        colTypeStrings_loop (S i) rest (types ++ [COL_SKIP])
      else
        Stop (unknown_type_message type (i + 1))
  end.

(** [colTypeStrings], lines 35-59. *)
Definition colTypeStrings (x : list string) : Rcpp_result (list ColType) :=
  colTypeStrings_loop 0 x [].

(** [colTypeDesc], lines 61-71.  The final [return "???"] is reached only by
    a value that is none of the six enumerators, which the inductive type
    does not contain. *)
Definition colTypeDesc (type : ColType) : string :=
  match type with
  | COL_BLANK => "blank"
  | COL_DATE => "date"
  | COL_NUMERIC => "numeric"
  | COL_TEXT => "text"
  | COL_LIST => "list"
  | COL_SKIP => "skip"
  end.

(** The vocabulary of column types and the type each word stands for, as
    the specification lists them. *)
Inductive names_type : string -> ColType -> Prop :=
| names_blank : names_type "blank" COL_BLANK
| names_date : names_type "date" COL_DATE
| names_numeric : names_type "numeric" COL_NUMERIC
| names_text : names_type "text" COL_TEXT
| names_list : names_type "list" COL_LIST
| names_skip : names_type "skip" COL_SKIP.

Definition vocabulary : list string :=
  ["blank"; "date"; "numeric"; "text"; "list"; "skip"].

(** ** Cell records *)

Module xls.

Module st_cell.
(** Modelled from the spec: [libxls/xls.h] is not among the sources.  A
    decoded cell record with the fields [cellType] reads: the record
    identifier, the numeric payload, the flag that tells a formula's
    numeric result ([0]) from a string result, the string payload and
    the style index. *)
Record st_cell_data : Type := {
  id : Z;
  d : spec_float;
  l : Z;
  str : string;
  xf : nat
}.
End st_cell.

(** Modelled from the spec: an entry of the style table, of which only
    the format identifier is read. *)
Record st_xf_data : Type := { format : Z }.

(** Modelled from the spec: the style table, an array indexed by the
    style index of a cell. *)
Record st_xf : Type := { xf : list st_xf_data }.

End xls.

(** [StringSet.h] is not among the sources.  The set of missing-value
    strings is taken through the two overloads of [contains] that
    [cellType] calls, one on a string and one on a double. *)
Record StringSet : Type := {
  contains_str : string -> bool;
  contains_dbl : spec_float -> bool
}.

(** The line feed that ends the diagnostic. *)
Definition newline : string := String (Ascii.ascii_of_nat 10) EmptyString.

(** What [cellType] writes to [Rcpp::Rcout] for an unknown record. *)
Definition unknown_record_message (id : Z) : string :=
  "Unknown type: " +:+ pretty id +:+ newline.

(** [cellType], lines 73-121.  [styles] is [None] for the null pointer.  The
    result pairs the returned type with the text written to [Rcpp::Rcout];
    it is [None] when [styles->xf[cell.xf]] reads past the end of the
    table, where C++ leaves the behaviour undefined. *)
Definition cellType (cell : xls.st_cell.st_cell_data) (styles : option xls.st_xf)
    (customDateFormats : gset Z) (na : StringSet)
  : option (CellType * string) :=
  let id := xls.st_cell.id cell in
  if (id =? 253) || (id =? 516) then
    Some (if contains_str na (xls.st_cell.str cell) then CELL_BLANK else CELL_TEXT,
          EmptyString)
  else if (id =? 6) || (id =? 1030) then
    if xls.st_cell.l cell =? 0 then
      Some (if contains_dbl na (xls.st_cell.d cell) then CELL_BLANK else CELL_NUMERIC,
            EmptyString)
    else
      if contains_str na (xls.st_cell.str cell) then Some (CELL_BLANK, EmptyString)
      else Some (CELL_TEXT, EmptyString)
  else if (id =? 189) || (id =? 515) || (id =? 638) then
    if contains_dbl na (xls.st_cell.d cell) then Some (CELL_BLANK, EmptyString)
    else
      match styles with
      | None => Some (CELL_NUMERIC, EmptyString)
      | Some table =>
          entry ← xls.xf table !! xls.st_cell.xf cell;
          let format := xls.format entry in
          Some (if isDateTime format customDateFormats then CELL_DATE else CELL_NUMERIC,
                EmptyString)
      end
  else if (id =? 190) || (id =? 513) then
    Some (CELL_BLANK, EmptyString)
  else
    Some (CELL_NUMERIC, unknown_record_message id).

(** ** Removing skipped columns *)

Section RemoveSkipped.

(** The values an [Rcpp::List] holds, and R's [NULL], with which
    [Rcpp::List out(p_out)] fills a new list. *)
Context {RObject : Type} (R_NilValue : RObject).

(** [v[i] = x] on a vector: the slot is overwritten when it exists; a
    write past the end is undefined and gives [None]. *)
Definition store {A : Type} (v : list A) (i : nat) (x : A) : option (list A) :=
  if decide (i < length v)%nat then Some (<[i := x]> v) else None.

(** The first loop, lines 197-200, with [n] iterations left at index [j].
    [types[j]] past the end of the vector is undefined: [None]. *)
Fixpoint count_loop (types : list ColType) (n j p_out : nat) : option nat :=
  match n with
  | O => Some p_out
  | S n' =>
      t ← types !! j;
      count_loop types n' (S j) (if decide (t ≠ COL_SKIP) then S p_out else p_out)
  end.

(** The second loop, lines 205-213, with [n] iterations left at index
    [j]. *)
Fixpoint copy_loop (cols : list RObject) (names : list string)
    (types : list ColType) (n j : nat)
    (out : list RObject) (names_out : list string) (j_out : nat)
  : option (list RObject * list string) :=
  match n with
  | O => Some (out, names_out)
  | S n' =>
      t ← types !! j;
      if decide (t = COL_SKIP) then
        copy_loop cols names types n' (S j) out names_out j_out
      else
        c ← cols !! j;
        out' ← store out j_out c;
        name ← names !! j;
        names_out' ← store names_out j_out name;
        copy_loop cols names types n' (S j) out' names_out' (S j_out)
  end.

(** [removeSkippedColumns], lines 191-219.  The result is the list [out]
    together with its [names] attribute. *)
Definition removeSkippedColumns (cols : list RObject) (names : list string)
    (types : list ColType) : option (list RObject * list string) :=
  let p := length cols in
  p_out ← count_loop types p 0 0;
  let out := replicate p_out R_NilValue in
  let names_out := replicate p_out EmptyString in
  copy_loop cols names types p 0 out names_out 0.

(** The columns to keep, as the specification words it: the triples of
    column, name and type whose type is not [COL_SKIP], in their order. *)
Definition kept (cols : list RObject) (names : list string)
    (types : list ColType) : list (RObject * string * ColType) :=
  filter (λ x, x.2 ≠ COL_SKIP) (zip (zip cols names) types).

End RemoveSkipped.

(** The record identifiers that [cellType] has a case for. *)
Definition recognized (id : Z) : Prop :=
  id = 253 \/ id = 516 \/ id = 6 \/ id = 1030 \/
  id = 189 \/ id = 515 \/ id = 638 \/ id = 190 \/ id = 513.

Definition numeric_record (id : Z) : Prop := id = 189 \/ id = 515 \/ id = 638.
Definition formula_record (id : Z) : Prop := id = 6 \/ id = 1030.
Definition blank_record (id : Z) : Prop := id = 190 \/ id = 513.
Definition label_record (id : Z) : Prop := id = 253 \/ id = 516.

#[global] Instance label_record_dec (id : Z) : Decision (label_record id).
Proof. unfold label_record. apply _. Defined.

#[global] Instance recognized_dec (id : Z) : Decision (recognized id).
Proof. unfold recognized. apply _. Defined.

#[global] Instance numeric_record_dec (id : Z) : Decision (numeric_record id).
Proof. unfold numeric_record. apply _. Defined.

#[global] Instance formula_record_dec (id : Z) : Decision (formula_record id).
Proof. unfold formula_record. apply _. Defined.

#[global] Instance blank_record_dec (id : Z) : Decision (blank_record id).
Proof. unfold blank_record. apply _. Defined.

(** Enters the case of [cellType] that a hypothesis on the record identifier
    selects. *)
Ltac enter_case H :=
  unfold cellType; cbv zeta;
  repeat (destruct H as [H | H]); rewrite H; cbn [Z.eqb Pos.eqb orb].

(** ** Format strings *)

(** The [switch] of [isDateFormat], lines 144-158: the ten letters that
    return [true]. *)
Definition date_letter (c : ascii) : bool :=
  Ascii.eqb c "d" || Ascii.eqb c "D" || Ascii.eqb c "m" || Ascii.eqb c "M" ||
  Ascii.eqb c "y" || Ascii.eqb c "Y" || Ascii.eqb c "h" || Ascii.eqb c "H" ||
  Ascii.eqb c "s" || Ascii.eqb c "S".

(** [isDateFormat], lines 142-162: the loop walks the characters from the
    first to the last and returns at the first of the ten letters. *)
Fixpoint isDateFormat (x : string) : bool :=
  match x with
  | EmptyString => false
  | String c rest => if date_letter c then true else isDateFormat rest
  end.

(** The letters of the [case] labels, as a list. *)
Definition date_letters : list ascii :=
  ["d"; "D"; "m"; "M"; "y"; "Y"; "h"; "H"; "s"; "S"]%char.

(** ** Making columns *)

Module Rcpp.

#[local] Set Warnings "-register-all".

(** The R values [makeCol] builds.  A vector carries its elements, where
    [None] is the missing value of its type ([NA_REAL], [NA_STRING],
    [NA_LOGICAL]), and its attributes in the order they were set. *)
Inductive RObject : Type :=
| R_NilValue
| NumericVector (data : list (option spec_float)) (attrs : list (string * RObject))
| CharacterVector (data : list (option string)) (attrs : list (string * RObject))
| LogicalVector (data : list (option bool)) (attrs : list (string * RObject))
| List (data : list RObject) (attrs : list (string * RObject)).

(** [attrs[name] = value] on a list of attributes: an attribute of that
    name is replaced, a new one goes to the end. *)
Fixpoint set_attribute (attrs : list (string * RObject)) (name : string)
    (value : RObject) : list (string * RObject) :=
  match attrs with
  | [] => [(name, value)]
  | (k, v) :: rest =>
      if String.eqb k name then (k, value) :: rest
      else (k, v) :: set_attribute rest name value
  end.

(** [col.attr(name) = value].  [R_NilValue] cannot carry attributes;
    [makeCol] sets none on it. *)
Definition attr (col : RObject) (name : string) (value : RObject) : RObject :=
  match col with
  | R_NilValue => R_NilValue
  | NumericVector data attrs => NumericVector data (set_attribute attrs name value)
  | CharacterVector data attrs => CharacterVector data (set_attribute attrs name value)
  | LogicalVector data attrs => LogicalVector data (set_attribute attrs name value)
  | List data attrs => List data (set_attribute attrs name value)
  end.

(** The length a vector constructor is called with.  R does not allocate a
    vector of negative length: the constructor raises an error, for which
    [None] stands. *)
Definition vector_length (n : Z) : option nat :=
  if n <? 0 then None else Some (Z.to_nat n).

(** [Rf_xlength]: the number of elements, 0 for [NULL]. *)
Definition xlength (x : RObject) : nat :=
  match x with
  | R_NilValue => 0
  | NumericVector data _ => length data
  | CharacterVector data _ => length data
  | LogicalVector data _ => length data
  | List data _ => length data
  end.

(** The attributes of a value. *)
Definition attributes (x : RObject) : list (string * RObject) :=
  match x with
  | R_NilValue => []
  | NumericVector _ attrs | CharacterVector _ attrs
  | LogicalVector _ attrs | List _ attrs => attrs
  end.

End Rcpp.

(** [makeCol], lines 164-189. *)
Definition makeCol (type : ColType) (n : Z) : option Rcpp.RObject :=
  match type with
  | COL_BLANK | COL_SKIP => Some Rcpp.R_NilValue
  | COL_DATE =>
      len ← Rcpp.vector_length n;
      let col := Rcpp.NumericVector (replicate len None) [] in
      let col := Rcpp.attr col "class"
                   (Rcpp.CharacterVector [Some "POSIXct"; Some "POSIXt"] []) in
      let col := Rcpp.attr col "tzone" (Rcpp.CharacterVector [Some "UTC"] []) in
      Some col
  | COL_NUMERIC =>
      len ← Rcpp.vector_length n;
      Some (Rcpp.NumericVector (replicate len None) [])
  | COL_TEXT =>
      len ← Rcpp.vector_length n;
      Some (Rcpp.CharacterVector (replicate len None) [])
  | COL_LIST =>
      len ← Rcpp.vector_length n;
      Some (Rcpp.List (replicate len (Rcpp.LogicalVector [None] [])) [])
  end.

(** A column every cell of which is still missing: a numeric or character
    vector of missing values, or a list of single missing logicals. *)
Definition all_missing (col : Rcpp.RObject) : Prop :=
  match col with
  | Rcpp.R_NilValue => True
  | Rcpp.NumericVector data _ => Forall (λ x, x = None) data
  | Rcpp.CharacterVector data _ => Forall (λ x, x = None) data
  | Rcpp.LogicalVector data _ => Forall (λ x, x = None) data
  | Rcpp.List data _ => Forall (λ x, x = Rcpp.LogicalVector [None] []) data
  end.

(** ** Sample inputs

    Concrete records, tables and sets at which the properties below are
    evaluated. *)

(** A missing-value set that holds the string [NA] and matches the double
    that is not a number. *)
Definition na_sample : StringSet := {|
  contains_str := λ s, String.eqb s "NA";
  contains_dbl := λ x, match x with S754_nan => true | _ => false end
|}.

Definition sample_cell (id : Z) (d : spec_float) (l : Z) (str : string)
    (xf : nat) : xls.st_cell.st_cell_data :=
  {| xls.st_cell.id := id; xls.st_cell.d := d; xls.st_cell.l := l;
     xls.st_cell.str := str; xls.st_cell.xf := xf |}.

(** The double 42, as mantissa 21 and exponent 1. *)
Definition forty_two : spec_float := S754_finite false 21 1.

(** A style table whose entry 0 has the general format and whose entry 1
    has the built-in date format 16. *)
Definition sample_styles : xls.st_xf :=
  {| xls.xf := [ {| xls.format := 0 |}; {| xls.format := 16 |} ] |}.

(** * Properties *)

(** ** The cast between the enumerations *)

(** C9: the first four ordinals of [ColType] are those of [CellType], in the
    order Blank, Date, Numeric, Text; the cast [as_ColType] always lands on an
    enumerator, keeps the ordinal, and sends each cell type to the column type
    of the same name. *)
Theorem as_ColType_is_cast :
  (CellType_ord CELL_BLANK = 0 /\ ColType_ord COL_BLANK = 0) /\
  (CellType_ord CELL_DATE = 1 /\ ColType_ord COL_DATE = 1) /\
  (CellType_ord CELL_NUMERIC = 2 /\ ColType_ord COL_NUMERIC = 2) /\
  (CellType_ord CELL_TEXT = 3 /\ ColType_ord COL_TEXT = 3) /\
  (forall cell : CellType,
      ColType_of_ord (CellType_ord cell) = Some (as_ColType cell) /\
      ColType_ord (as_ColType cell) = CellType_ord cell) /\
  as_ColType CELL_BLANK = COL_BLANK /\
  as_ColType CELL_DATE = COL_DATE /\
  as_ColType CELL_NUMERIC = COL_NUMERIC /\
  as_ColType CELL_TEXT = COL_TEXT.
Proof.
  repeat split; try reflexivity; destruct cell; reflexivity.
Qed.

(** [List] and [Skip] are the ordinals no cell type has. *)
Lemma as_ColType_range (cell : CellType) :
  as_ColType cell <> COL_LIST /\ as_ColType cell <> COL_SKIP.
Proof. destruct cell; split; discriminate. Qed.

(** ** The date-format test *)

Lemma builtin_date_range_test (f : Z) :
  builtin_date_range f <->
  ((14 <=? f) && (f <=? 22)) || ((27 <=? f) && (f <=? 36)) ||
  ((45 <=? f) && (f <=? 47)) || ((50 <=? f) && (f <=? 58)) ||
  ((71 <=? f) && (f <=? 81)) = true.
Proof.
  unfold builtin_date_range.
  rewrite !orb_true_iff, !andb_true_iff, !Z.leb_le. tauto.
Qed.

Lemma isDateTime_in_range (f : Z) (custom : gset Z) :
  builtin_date_range f -> isDateTime f custom = true.
Proof.
  intros Hf. apply builtin_date_range_test in Hf.
  unfold isDateTime. now rewrite Hf.
Qed.

Lemma isDateTime_out_of_range (f : Z) (custom : gset Z) :
  ~ builtin_date_range f ->
  isDateTime f custom = if f <? 164 then false else 0 <? set_count custom f.
Proof.
  intros Hf. rewrite builtin_date_range_test in Hf.
  apply not_true_is_false in Hf.
  unfold isDateTime. now rewrite Hf.
Qed.

(** C2: a format identifier inside one of the five ranges is a date format
    whatever the custom set is; one below 164 and outside the ranges is not.
    [isDateTime] is a function from all integers to [bool], so it answers on
    every input. *)
Theorem isDateTime_builtin (f : Z) (custom : gset Z) :
  (builtin_date_range f -> isDateTime f custom = true) /\
  (f < 164 -> ~ builtin_date_range f -> isDateTime f custom = false) /\
  (isDateTime f custom = true \/ isDateTime f custom = false).
Proof.
  split; [apply isDateTime_in_range | split].
  - intros Hlt Hf. rewrite isDateTime_out_of_range by assumption.
    apply Z.ltb_lt in Hlt. now rewrite Hlt.
  - destruct (isDateTime f custom); auto.
Qed.

Lemma isDateTime_builtin_witness :
  isDateTime 16 ∅ = true /\ isDateTime 49 {[49]} = false.
Proof.
  split.
  - apply (proj1 (isDateTime_builtin 16 ∅)).
    unfold builtin_date_range. lia.
  - apply (proj1 (proj2 (isDateTime_builtin 49 {[49]}))).
    + lia.
    + unfold builtin_date_range. lia.
Defined.

(** C3: from 164 on, a format identifier is a date format exactly when the
    custom set has it. *)
Theorem isDateTime_custom (f : Z) (custom : gset Z) :
  164 <= f -> (isDateTime f custom = true <-> f ∈ custom).
Proof.
  intros Hf.
  rewrite isDateTime_out_of_range by (unfold builtin_date_range; lia).
  assert ((f <? 164) = false) as -> by (apply Z.ltb_ge; lia).
  unfold set_count. destruct (decide (f ∈ custom)); simpl.
  - split; auto.
  - split; [discriminate | contradiction].
Qed.

Lemma isDateTime_custom_witness :
  isDateTime 200 {[164; 200]} = true <-> 200 ∈ ({[164; 200]} : gset Z).
Proof. apply (isDateTime_custom 200 {[164; 200]}). lia. Defined.

(** ** The classifier *)

Lemma append_newline_inj (s1 s2 : string) :
  s1 +:+ newline = s2 +:+ newline -> s1 = s2.
Proof.
  revert s2. induction s1 as [| a s1 IH]; intros [| b s2] H; cbn in H.
  - reflexivity.
  - destruct s2; discriminate.
  - destruct s1; discriminate.
  - injection H as -> H. f_equal. now apply IH.
Qed.

Lemma unknown_record_message_inj (id1 id2 : Z) :
  unknown_record_message id1 = unknown_record_message id2 -> id1 = id2.
Proof.
  unfold unknown_record_message. intros H.
  apply (inj (String.app "Unknown type: ")) in H.
  apply append_newline_inj in H.
  now apply (inj pretty) in H.
Qed.

Section Classifier.

Variable cell : xls.st_cell.st_cell_data.
Variable styles : option xls.st_xf.
Variable customDateFormats : gset Z.
Variable na : StringSet.

(** C1: a numeric-value record (189, 515 or 638) is Blank when its value
    matches the missing-value set; otherwise Numeric when there is no style
    table; otherwise, with the format identifier found at the record's
    style index, Date when [isDateTime] holds of it and Numeric when not. *)
Theorem cellType_numeric_record :
  numeric_record (xls.st_cell.id cell) ->
  (contains_dbl na (xls.st_cell.d cell) = true ->
   cellType cell styles customDateFormats na = Some (CELL_BLANK, EmptyString)) /\
  (contains_dbl na (xls.st_cell.d cell) = false ->
   styles = None ->
   cellType cell styles customDateFormats na = Some (CELL_NUMERIC, EmptyString)) /\
  (contains_dbl na (xls.st_cell.d cell) = false ->
   forall table entry,
     styles = Some table ->
     xls.xf table !! xls.st_cell.xf cell = Some entry ->
     cellType cell styles customDateFormats na =
       Some (if isDateTime (xls.format entry) customDateFormats
             then CELL_DATE else CELL_NUMERIC, EmptyString)).
Proof.
  intros Hid. repeat split.
  - intros Hna. enter_case Hid; now rewrite Hna.
  - intros Hna ->. enter_case Hid; now rewrite Hna.
  - intros Hna table entry -> Hentry.
    enter_case Hid; rewrite Hna, Hentry; reflexivity.
Qed.

(** C6: a blank-cell record (190 or 513) is Blank, and nothing is written,
    whatever the style table, the custom formats and the missing-value set
    are. *)
Theorem cellType_blank_record :
  blank_record (xls.st_cell.id cell) ->
  cellType cell styles customDateFormats na = Some (CELL_BLANK, EmptyString).
Proof. intros Hid. enter_case Hid; reflexivity. Qed.

(** C8: a record whose identifier is not recognized does not fail: the
    classifier returns Numeric and writes the diagnostic, which carries the
    identifier and tells it from every other one. *)
Theorem cellType_unknown_record :
  ~ recognized (xls.st_cell.id cell) ->
  cellType cell styles customDateFormats na =
    Some (CELL_NUMERIC, unknown_record_message (xls.st_cell.id cell)) /\
  unknown_record_message (xls.st_cell.id cell) =
    "Unknown type: " +:+ pretty (xls.st_cell.id cell) +:+ newline /\
  forall id' : Z,
    unknown_record_message id' = unknown_record_message (xls.st_cell.id cell) ->
    id' = xls.st_cell.id cell.
Proof.
  intros Hid. split; [| split; [reflexivity | intros id'; apply unknown_record_message_inj]].
  unfold recognized in Hid. unfold cellType. cbv zeta.
  repeat match goal with
         | |- context [Z.eqb ?a ?b] =>
             destruct (Z.eqb_spec a b) as [Heq | _]; [exfalso; tauto |]
         end.
  reflexivity.
Qed.

(** C10: a formula record (6 or 1030) is never Date.  The result is Blank
    or Numeric for a numeric cached result and Blank or Text for a string
    cached result, nothing is written, and neither the style table nor the
    custom formats have a say. *)
Theorem cellType_formula_record :
  formula_record (xls.st_cell.id cell) ->
  exists c : CellType,
    cellType cell styles customDateFormats na = Some (c, EmptyString) /\
    c <> CELL_DATE /\
    (xls.st_cell.l cell = 0 -> c = CELL_BLANK \/ c = CELL_NUMERIC) /\
    (xls.st_cell.l cell <> 0 -> c = CELL_BLANK \/ c = CELL_TEXT) /\
    forall styles' customDateFormats',
      cellType cell styles' customDateFormats' na = Some (c, EmptyString).
Proof.
  intros Hid.
  destruct (Z.eqb_spec (xls.st_cell.l cell) 0) as [Hl | Hl].
  - exists (if contains_dbl na (xls.st_cell.d cell) then CELL_BLANK else CELL_NUMERIC).
    assert (forall st cu, cellType cell st cu na =
      Some (if contains_dbl na (xls.st_cell.d cell) then CELL_BLANK else CELL_NUMERIC,
            EmptyString)) as Hall.
    { intros st cu. enter_case Hid; rewrite Hl; reflexivity. }
    destruct (contains_dbl na (xls.st_cell.d cell)); repeat split;
      auto; try discriminate; intros; contradiction.
  - exists (if contains_str na (xls.st_cell.str cell) then CELL_BLANK else CELL_TEXT).
    assert (forall st cu, cellType cell st cu na =
      Some (if contains_str na (xls.st_cell.str cell) then CELL_BLANK else CELL_TEXT,
            EmptyString)) as Hall.
    { intros st cu. apply Z.eqb_neq in Hl.
      enter_case Hid; rewrite Hl;
        destruct (contains_str na (xls.st_cell.str cell)); reflexivity. }
    destruct (contains_str na (xls.st_cell.str cell)); repeat split;
      auto; try discriminate; intros; contradiction.
Qed.

End Classifier.

Lemma cellType_numeric_record_witness :
  cellType (sample_cell 638 S754_nan 0 EmptyString 1) (Some sample_styles) ∅ na_sample
    = Some (CELL_BLANK, EmptyString) /\
  cellType (sample_cell 189 forty_two 0 EmptyString 1) None ∅ na_sample
    = Some (CELL_NUMERIC, EmptyString) /\
  cellType (sample_cell 515 forty_two 0 EmptyString 1) (Some sample_styles) ∅ na_sample
    = Some (CELL_DATE, EmptyString).
Proof.
  split; [| split].
  - apply (cellType_numeric_record
             (sample_cell 638 S754_nan 0 EmptyString 1) (Some sample_styles) ∅ na_sample).
    + right; right; reflexivity.
    + reflexivity.
  - apply (cellType_numeric_record
             (sample_cell 189 forty_two 0 EmptyString 1) None ∅ na_sample).
    + left; reflexivity.
    + reflexivity.
    + reflexivity.
  - apply (proj2 (proj2 (cellType_numeric_record
             (sample_cell 515 forty_two 0 EmptyString 1) (Some sample_styles) ∅ na_sample
             (or_intror (or_introl eq_refl))))
             eq_refl sample_styles {| xls.format := 16 |} eq_refl eq_refl).
Defined.

Lemma cellType_blank_record_witness :
  cellType (sample_cell 190 forty_two 0 "x" 1) (Some sample_styles) {[164]} na_sample
    = Some (CELL_BLANK, EmptyString).
Proof.
  apply (cellType_blank_record
           (sample_cell 190 forty_two 0 "x" 1) (Some sample_styles) {[164]} na_sample).
  left; reflexivity.
Defined.

Lemma cellType_unknown_record_witness :
  cellType (sample_cell 999 forty_two 0 EmptyString 0) None ∅ na_sample
    = Some (CELL_NUMERIC, "Unknown type: 999" +:+ newline).
Proof.
  apply (cellType_unknown_record
           (sample_cell 999 forty_two 0 EmptyString 0) None ∅ na_sample).
  unfold recognized; cbn. lia.
Defined.

Lemma cellType_formula_record_witness :
  exists c : CellType,
    cellType (sample_cell 6 forty_two 0 EmptyString 1) (Some sample_styles) ∅ na_sample
      = Some (c, EmptyString) /\ c <> CELL_DATE.
Proof.
  destruct (cellType_formula_record
              (sample_cell 6 forty_two 0 EmptyString 1) (Some sample_styles) ∅ na_sample
              (or_introl eq_refl)) as (c & Hc & Hdate & _).
  exists c. split; assumption.
Defined.

(** The cases of the specification's tests for record 515, and a formula
    whose style points at a date format. *)
Example cellType_515_na :
  cellType (sample_cell 515 S754_nan 0 EmptyString 0) (Some sample_styles) ∅ na_sample
    = Some (CELL_BLANK, EmptyString).
Proof. reflexivity. Qed.

Example cellType_515_no_styles :
  cellType (sample_cell 515 forty_two 0 EmptyString 0) None ∅ na_sample
    = Some (CELL_NUMERIC, EmptyString).
Proof. reflexivity. Qed.

Example cellType_515_format_16 :
  cellType (sample_cell 515 forty_two 0 EmptyString 1) (Some sample_styles) ∅ na_sample
    = Some (CELL_DATE, EmptyString).
Proof. reflexivity. Qed.

Example cellType_515_format_0 :
  cellType (sample_cell 515 forty_two 0 EmptyString 0) (Some sample_styles) ∅ na_sample
    = Some (CELL_NUMERIC, EmptyString).
Proof. reflexivity. Qed.

Example cellType_formula_date_style :
  cellType (sample_cell 1030 forty_two 0 EmptyString 1) (Some sample_styles) ∅ na_sample
    = Some (CELL_NUMERIC, EmptyString).
Proof. reflexivity. Qed.

Example cellType_formula_string :
  cellType (sample_cell 6 forty_two 1 "abc" 1) (Some sample_styles) ∅ na_sample
    = Some (CELL_TEXT, EmptyString).
Proof. reflexivity. Qed.

(** A style index past the end of the table: the read is undefined. *)
Example cellType_515_style_out_of_range :
  cellType (sample_cell 515 forty_two 0 EmptyString 2) (Some sample_styles) ∅ na_sample
    = None.
Proof. reflexivity. Qed.

(** ** Parsing and printing column types *)

Lemma names_type_vocabulary (s : string) (t : ColType) :
  names_type s t -> s ∈ vocabulary.
Proof. intros []; unfold vocabulary; set_solver. Qed.

Lemma vocabulary_names_type (s : string) :
  s ∈ vocabulary -> exists t, names_type s t.
Proof.
  unfold vocabulary. rewrite !elem_of_cons, elem_of_nil.
  intros [-> | [-> | [-> | [-> | [-> | [-> | []]]]]]]; eexists; constructor.
Qed.

Lemma names_type_colTypeDesc (s : string) (t : ColType) :
  names_type s t <-> colTypeDesc t = s.
Proof.
  split.
  - intros []; reflexivity.
  - intros <-. destruct t; constructor.
Qed.

(** One turn of the loop: a word of the vocabulary is pushed as its type,
    any other string stops the call. *)
Lemma colTypeStrings_loop_step (i : nat) (type : string) (rest : list string)
    (types : list ColType) :
  (exists t, names_type type t /\
     colTypeStrings_loop i (type :: rest) types =
     colTypeStrings_loop (S i) rest (types ++ [t])) \/
  ((type ∉ vocabulary) /\
     colTypeStrings_loop i (type :: rest) types =
     Stop (unknown_type_message type (i + 1))).
Proof.
  cbn [colTypeStrings_loop].
  destruct (String.eqb_spec type "blank") as [-> | H1];
    [left; eexists; split; [constructor | reflexivity] |].
  destruct (String.eqb_spec type "date") as [-> | H2];
    [left; eexists; split; [constructor | reflexivity] |].
  destruct (String.eqb_spec type "numeric") as [-> | H3];
    [left; eexists; split; [constructor | reflexivity] |].
  destruct (String.eqb_spec type "text") as [-> | H4];
    [left; eexists; split; [constructor | reflexivity] |].
  destruct (String.eqb_spec type "list") as [-> | H5];
    [left; eexists; split; [constructor | reflexivity] |].
  destruct (String.eqb_spec type "skip") as [-> | H6];
    [left; eexists; split; [constructor | reflexivity] |].
  right. split; [| reflexivity].
  unfold vocabulary. rewrite !elem_of_cons, elem_of_nil. tauto.
Qed.

Lemma colTypeStrings_loop_ok (x : list string) :
  Forall (λ s, s ∈ vocabulary) x ->
  forall i types, exists ts,
    colTypeStrings_loop i x types = Ok (types ++ ts) /\ Forall2 names_type x ts.
Proof.
  induction 1 as [| type rest Htype _ IH]; intros i types.
  - exists []. split; [cbn; now rewrite app_nil_r | constructor].
  - destruct (colTypeStrings_loop_step i type rest types)
      as [(t & Ht & ->) | (Hout & _)]; [| contradiction].
    destruct (IH (S i) (types ++ [t])) as (ts & -> & Hts).
    exists (t :: ts). split; [now rewrite <- app_assoc | now constructor].
Qed.

Lemma colTypeStrings_loop_stop (x : list string) :
  ~ Forall (λ s, s ∈ vocabulary) x ->
  forall i types, exists (k : nat) (s : string),
    x !! k = Some s /\ (s ∉ vocabulary) /\
    Forall (λ s, s ∈ vocabulary) (take k x) /\
    colTypeStrings_loop i x types = Stop (unknown_type_message s (i + k + 1)).
Proof.
  induction x as [| type rest IH]; intros Hx i types.
  - destruct Hx. constructor.
  - destruct (colTypeStrings_loop_step i type rest types)
      as [(t & Ht & ->) | (Hout & ->)].
    + assert (~ Forall (λ s, s ∈ vocabulary) rest) as Hrest.
      { intros H. apply Hx. constructor; [| exact H].
        exact (names_type_vocabulary _ _ Ht). }
      destruct (IH Hrest (S i) (types ++ [t])) as (k & s & Hk & Hs & Hpre & ->).
      exists (S k), s. repeat split; try assumption.
      * cbn. constructor; [exact (names_type_vocabulary _ _ Ht) | assumption].
      * do 2 f_equal. lia.
    + exists 0%nat, type. repeat split; try assumption.
      * constructor.
      * do 2 f_equal. lia.
Qed.

(** *** The text of the error

    The message quotes the string and ends in the decimal position.  The
    digits hold no blank, so the last blank of the message parts the two,
    and the message gives back both. *)

Lemma list_ascii_of_string_app (a b : string) :
  String.list_ascii_of_string (a +:+ b) =
  String.list_ascii_of_string a ++ String.list_ascii_of_string b.
Proof.
  induction a as [| c a IH]; [reflexivity |].
  change (String c a +:+ b) with (String c (a +:+ b)).
  cbn [String.list_ascii_of_string]. now rewrite IH.
Qed.

Lemma list_ascii_of_string_inj (a b : string) :
  String.list_ascii_of_string a = String.list_ascii_of_string b -> a = b.
Proof.
  intros H. rewrite <- (String.string_of_list_ascii_of_string a),
    <- (String.string_of_list_ascii_of_string b). now rewrite H.
Qed.

(** Two lists cut at an element that their tails do not hold are cut at
    the same place. *)
Lemma app_cons_pivot {A : Type} (x : A) (u v d1 d2 : list A) :
  x ∉ d1 -> x ∉ d2 -> u ++ x :: d1 = v ++ x :: d2 -> u = v /\ d1 = d2.
Proof.
  intros H1 H2. revert v. induction u as [| a u IH]; intros [| b v] H; cbn in H.
  - injection H as ->. now split.
  - injection H as <- ->. destruct H1. apply elem_of_app. right. left.
  - injection H as -> <-. destruct H2. apply elem_of_app. right. left.
  - injection H as -> H. destruct (IH v H) as [-> ->]. now split.
Qed.

Lemma pretty_N_char_no_blank (x : N) : pretty_N_char x <> " "%char.
Proof. unfold pretty_N_char. repeat case_match; discriminate. Qed.

Lemma pretty_N_go_no_blank (x : N) :
  forall s : string,
    " "%char ∉ String.list_ascii_of_string s ->
    " "%char ∉ String.list_ascii_of_string (pretty_N_go x s).
Proof.
  induction (N.lt_wf_0 x) as [x _ IH]; intros s Hs.
  assert (x = 0 \/ 0 < x)%N as [-> | Hpos] by lia.
  - now rewrite pretty_N_go_0.
  - rewrite pretty_N_go_step by assumption.
    apply IH; [now apply N.div_lt |].
    cbn. intros Hin. apply elem_of_cons in Hin as [Heq | Hin]; [| contradiction].
    symmetry in Heq. now apply pretty_N_char_no_blank in Heq.
Qed.

Lemma pretty_nat_no_blank (pos : nat) :
  " "%char ∉ String.list_ascii_of_string (pretty pos).
Proof.
  unfold pretty, pretty_nat, pretty, pretty_N.
  destruct (decide (N.of_nat pos = 0%N)).
  - cbn. intros Hin. apply elem_of_cons in Hin as [Heq | Hin]; [discriminate |].
    now apply elem_of_nil in Hin.
  - apply pretty_N_go_no_blank. cbn. apply not_elem_of_nil.
Qed.

Lemma unknown_type_message_form (type : string) (pos : nat) :
  unknown_type_message type pos =
  "Unknown type '" +:+ type +:+ "' at position " +:+ pretty pos.
Proof. reflexivity. Qed.

(** The message identifies the string and the position: two messages are
    equal only for the same string at the same position. *)
Lemma unknown_type_message_inj (s1 s2 : string) (pos1 pos2 : nat) :
  unknown_type_message s1 pos1 = unknown_type_message s2 pos2 ->
  s1 = s2 /\ pos1 = pos2.
Proof.
  rewrite !unknown_type_message_form. intros H.
  apply (inj (String.app "Unknown type '")) in H.
  apply (f_equal String.list_ascii_of_string) in H.
  rewrite !list_ascii_of_string_app in H.
  change (String.list_ascii_of_string "' at position ")
    with (String.list_ascii_of_string "' at position" ++ [" "%char]) in H.
  rewrite <- !(app_assoc (String.list_ascii_of_string "' at position")) in H.
  rewrite !(app_assoc _ (String.list_ascii_of_string "' at position")) in H.
  apply app_cons_pivot in H as [Hs Hpos]; try apply pretty_nat_no_blank.
  apply app_inv_tail in Hs. split.
  - now apply list_ascii_of_string_inj.
  - apply list_ascii_of_string_inj in Hpos. now apply (inj pretty) in Hpos.
Qed.

(** C4: when every input string is a word of the vocabulary the call
    succeeds, and the result pairs each string, compared exactly, with the
    type it names; otherwise the call stops with the message that quotes
    the first string outside the vocabulary and gives its position counted
    from one.  The message has the text of the [Rcpp::stop] call, and it
    identifies the string and the position: no other string and no other
    position give the same message. *)
Theorem colTypeStrings_spec (x : list string) :
  (Forall (λ s, s ∈ vocabulary) x ->
   exists types, colTypeStrings x = Ok types /\ Forall2 names_type x types) /\
  (~ Forall (λ s, s ∈ vocabulary) x ->
   exists (k : nat) (s : string),
     x !! k = Some s /\ (s ∉ vocabulary) /\
     Forall (λ s, s ∈ vocabulary) (take k x) /\
     colTypeStrings x = Stop (unknown_type_message s (k + 1)) /\
     unknown_type_message s (k + 1) =
       "Unknown type '" +:+ s +:+ "' at position " +:+ pretty (k + 1)%nat /\
     forall (s' : string) (pos' : nat),
       unknown_type_message s' pos' = unknown_type_message s (k + 1) ->
       s' = s /\ pos' = (k + 1)%nat).
Proof.
  split; intros Hx.
  - destruct (colTypeStrings_loop_ok x Hx 0 []) as (ts & Hts & Hrel).
    exists ts. split; assumption.
  - destruct (colTypeStrings_loop_stop x Hx 0 []) as (k & s & Hk & Hs & Hpre & Hstop).
    exists k, s. repeat split; try assumption.
    + now apply unknown_type_message_inj in H.
    + now apply unknown_type_message_inj in H.
Qed.

(** C5: printing the parse of a word of the vocabulary gives the word back,
    and parsing the printed form of a column type gives the type back. *)
Theorem colTypeDesc_colTypeStrings_inverse :
  (forall s : string, s ∈ vocabulary ->
     exists t, colTypeStrings [s] = Ok [t] /\ colTypeDesc t = s) /\
  (forall t : ColType, colTypeStrings [colTypeDesc t] = Ok [t]).
Proof.
  split.
  - intros s Hs. destruct (vocabulary_names_type s Hs) as [t Ht].
    exists t. destruct Ht; split; reflexivity.
  - intros []; reflexivity.
Qed.

Lemma colTypeStrings_spec_witness :
  (exists types, colTypeStrings ["text"; "skip"; "date"] = Ok types /\
                 Forall2 names_type ["text"; "skip"; "date"] types) /\
  (exists (k : nat) (s : string),
     ["list"; "blans"; "Text"] !! k = Some s /\
     s = "blans" /\ (k + 1 = 2)%nat /\
     colTypeStrings ["list"; "blans"; "Text"] =
       Stop "Unknown type 'blans' at position 2").
Proof.
  split.
  - apply (proj1 (colTypeStrings_spec ["text"; "skip"; "date"])).
    apply (bool_decide_unpack _). vm_compute. exact I.
  - destruct (proj2 (colTypeStrings_spec ["list"; "blans"; "Text"]))
      as (k & s & Hk & _ & _ & Hstop & Hform & Hinj).
    + apply (bool_decide_unpack _). vm_compute. exact I.
    + assert (Stop (unknown_type_message "blans" 2) =
              @Stop (list ColType) (unknown_type_message s (k + 1))) as Hsame
          by (rewrite <- Hstop; reflexivity).
      pose proof (f_equal (λ r : Rcpp_result (list ColType),
                             match r with Stop m => m | Ok _ => EmptyString end)
                          Hsame) as Hmessage.
      destruct (Hinj "blans" 2%nat Hmessage) as [Hs Hpos].
      exists k, s. split; [| split; [| split]].
      * exact Hk.
      * symmetry. exact Hs.
      * symmetry. exact Hpos.
      * rewrite Hstop, Hform, <- Hs, <- Hpos. reflexivity.
Defined.

Lemma colTypeDesc_colTypeStrings_inverse_witness :
  exists t, colTypeStrings ["numeric"] = Ok [t] /\ colTypeDesc t = "numeric".
Proof.
  apply (proj1 colTypeDesc_colTypeStrings_inverse "numeric").
  apply (bool_decide_unpack _). vm_compute. exact I.
Defined.

(** The specification's test of a misspelt type, and the exactness of the
    comparison: neither case nor surrounding blanks are forgiven. *)
Example colTypeStrings_blans :
  colTypeStrings ["blans"] = Stop "Unknown type 'blans' at position 1".
Proof. reflexivity. Qed.

Example colTypeStrings_case_sensitive :
  colTypeStrings ["text"; "Text"] = Stop "Unknown type 'Text' at position 2".
Proof. reflexivity. Qed.

Example colTypeStrings_no_trimming :
  colTypeStrings ["skip "] = Stop "Unknown type 'skip ' at position 1".
Proof. reflexivity. Qed.

Example colTypeStrings_all :
  colTypeStrings vocabulary =
  Ok [COL_BLANK; COL_DATE; COL_NUMERIC; COL_TEXT; COL_LIST; COL_SKIP].
Proof. reflexivity. Qed.

(** ** Removing skipped columns *)

Section RemoveSkippedProofs.

Context {RObject : Type} (R_NilValue : RObject).

Lemma store_middle {A : Type} (done rest : list A) (old new : A) :
  store (done ++ old :: rest) (length done) new = Some ((done ++ [new]) ++ rest).
Proof.
  unfold store. rewrite decide_True by (rewrite length_app; cbn; lia).
  f_equal. rewrite <- app_assoc.
  induction done as [| a done IH]; [reflexivity |].
  cbn [app length]. cbn. f_equal. exact IH.
Qed.

Lemma kept_cons (c : RObject) (name : string) (t : ColType) cs ns ts :
  kept (c :: cs) (name :: ns) (t :: ts) =
  if decide (t = COL_SKIP) then kept cs ns ts else (c, name, t) :: kept cs ns ts.
Proof.
  unfold kept. cbn [zip zip_with]. rewrite filter_cons. cbn [snd].
  destruct (decide (t = COL_SKIP)) as [-> | Ht].
  - now rewrite decide_False by (intros H; now apply H).
  - now rewrite decide_True.
Qed.

Lemma kept_types (cols : list RObject) (names : list string) :
  forall types : list ColType,
    length cols = length names -> length cols = length types ->
    (kept cols names types).*2 = filter (λ t, t ≠ COL_SKIP) types.
Proof.
  revert names. induction cols as [| c cs IH]; intros [| name ns] [| t ts] Hn Ht;
    try discriminate; [reflexivity |].
  injection Hn as Hn. injection Ht as Ht. rewrite kept_cons, filter_cons.
  destruct (decide (t = COL_SKIP)) as [-> | Hskip].
  - rewrite decide_False by (intros H; now apply H). apply IH; lia.
  - rewrite decide_True by assumption. cbn. f_equal. apply IH; lia.
Qed.

(** The first loop counts the types that are not [COL_SKIP]. *)
Lemma count_loop_spec (types : list ColType) :
  forall (rest before : list ColType) (p_out : nat),
    types = before ++ rest ->
    count_loop types (length rest) (length before) p_out =
    Some (p_out + length (filter (λ t, t ≠ COL_SKIP) rest))%nat.
Proof.
  induction rest as [| t rest IH]; intros before p_out Htypes.
  - cbn. f_equal. lia.
  - cbn [length count_loop].
    assert (types !! length before = Some t) as ->
        by (subst types; apply list_lookup_middle; reflexivity).
    cbn [mbind option_bind].
    replace (S (length before)) with (length (before ++ [t]))
      by (rewrite length_app; cbn; lia).
    rewrite IH by (now rewrite <- app_assoc).
    rewrite filter_cons. f_equal.
    destruct (decide (t ≠ COL_SKIP)); cbn; lia.
Qed.

(** The second loop: with [j_out] slots filled, and as many free slots
    as columns are still to be kept, it fills the free slots with the kept
    columns and their names, in order. *)
Lemma copy_loop_spec (cols : list RObject) (names : list string)
    (types : list ColType) :
  forall (ts bt : list ColType) (cs bc : list RObject) (ns bn : list string)
         (out : list RObject) (names_out : list string),
    cols = bc ++ cs -> names = bn ++ ns -> types = bt ++ ts ->
    length bc = length bt -> length bn = length bt ->
    length cs = length ts -> length ns = length ts ->
    length names_out = length out ->
    copy_loop cols names types (length ts) (length bt)
      (out ++ replicate (length (kept cs ns ts)) R_NilValue)
      (names_out ++ replicate (length (kept cs ns ts)) EmptyString)
      (length out) =
    Some (out ++ (kept cs ns ts).*1.*1, names_out ++ (kept cs ns ts).*1.*2).
Proof.
  induction ts as [| t ts IH];
    intros bt [| c cs] bc [| name ns] bn out names_out
           Hcols Hnames Htypes Hbc Hbn Hcs Hns Hlen; try discriminate.
  - cbn. now rewrite !app_nil_r.
  - cbn [length copy_loop].
    assert (types !! length bt = Some t) as ->
        by (subst types; apply list_lookup_middle; reflexivity).
    cbn [mbind option_bind].
    injection Hcs as Hcs. injection Hns as Hns.
    assert (length (bt ++ [t]) = S (length bt)) as Hbt
        by (rewrite length_app; cbn; lia).
    rewrite kept_cons. destruct (decide (t = COL_SKIP)) as [Hskip | Hskip].
    + rewrite <- Hbt.
      rewrite (IH (bt ++ [t]) cs (bc ++ [c]) ns (bn ++ [name]) out names_out);
        rewrite <- ?app_assoc, ?length_app; cbn; try assumption; try lia.
      reflexivity.
    + assert (cols !! length bt = Some c) as ->
          by (subst cols; apply list_lookup_middle; lia).
      assert (names !! length bt = Some name) as ->
          by (subst names; apply list_lookup_middle; lia).
      cbn [mbind option_bind length replicate].
      rewrite store_middle. cbn [mbind option_bind].
      rewrite <- Hlen, store_middle. cbn [mbind option_bind].
      replace (S (length names_out)) with (length (out ++ [c]))
        by (rewrite length_app; cbn; lia).
      rewrite <- Hbt.
      rewrite (IH (bt ++ [t]) cs (bc ++ [c]) ns (bn ++ [name])
                  (out ++ [c]) (names_out ++ [name]));
        rewrite <- ?app_assoc, ?length_app; cbn; try assumption; try lia.
      reflexivity.
Qed.

(** C7: for columns, names and types of one length, the filter returns
    the columns whose type is not [COL_SKIP], each as it was and with its
    own name, in their original order; there are as many as there are types
    other than [COL_SKIP]. *)
Theorem removeSkippedColumns_spec (cols : list RObject) (names : list string)
    (types : list ColType) :
  length cols = length names -> length cols = length types ->
  removeSkippedColumns R_NilValue cols names types =
    Some ((kept cols names types).*1.*1, (kept cols names types).*1.*2) /\
  (kept cols names types).*2 = filter (λ t, t ≠ COL_SKIP) types /\
  length (kept cols names types) = length (filter (λ t, t ≠ COL_SKIP) types).
Proof.
  intros Hnames Htypes.
  pose proof (kept_types cols names types Hnames Htypes) as Hkept.
  assert (length (kept cols names types) =
          length (filter (λ t, t ≠ COL_SKIP) types)) as Hlen
      by (now rewrite <- Hkept, length_fmap).
  repeat split; try assumption.
  unfold removeSkippedColumns. rewrite Htypes.
  pose proof (count_loop_spec types types [] 0%nat eq_refl) as Hcount.
  cbn [length app] in Hcount. rewrite Hcount.
  cbn [mbind option_bind Nat.add]. rewrite <- Hlen.
  exact (copy_loop_spec cols names types types [] cols [] names [] [] []
           eq_refl eq_refl eq_refl eq_refl eq_refl
           Htypes (eq_trans (eq_sym Hnames) Htypes) eq_refl).
Qed.

End RemoveSkippedProofs.

Lemma removeSkippedColumns_spec_witness :
  removeSkippedColumns "NULL" ["c1"; "c2"; "c3"] ["a"; "b"; "c"]
    [COL_TEXT; COL_SKIP; COL_NUMERIC] = Some (["c1"; "c3"], ["a"; "c"]) /\
  (kept ["c1"; "c2"; "c3"] ["a"; "b"; "c"] [COL_TEXT; COL_SKIP; COL_NUMERIC]).*2
    = [COL_TEXT; COL_NUMERIC] /\
  length (kept ["c1"; "c2"; "c3"] ["a"; "b"; "c"] [COL_TEXT; COL_SKIP; COL_NUMERIC])
    = 2%nat.
Proof.
  apply (removeSkippedColumns_spec "NULL" ["c1"; "c2"; "c3"] ["a"; "b"; "c"]
           [COL_TEXT; COL_SKIP; COL_NUMERIC]); reflexivity.
Defined.

(** With a vector of names or of types shorter than the list of columns the
    loops read past its end. *)
Example removeSkippedColumns_short_names :
  removeSkippedColumns "NULL" ["c1"; "c2"] ["a"] [COL_TEXT; COL_DATE] = None.
Proof. reflexivity. Qed.

Example removeSkippedColumns_all_skipped :
  removeSkippedColumns "NULL" ["c1"; "c2"] ["a"; "b"] [COL_SKIP; COL_SKIP]
    = Some ([], []).
Proof. reflexivity. Qed.


(** * Further properties *)

(** ** The cast, once more *)

(** The cast loses nothing and reaches exactly the four column types that
    a cell can have: no cell type is cast to [COL_LIST] or [COL_SKIP]. *)
Theorem as_ColType_embedding :
  (forall c1 c2 : CellType, as_ColType c1 = as_ColType c2 -> c1 = c2) /\
  (forall t : ColType,
      (exists c : CellType, as_ColType c = t) <-> t <> COL_LIST /\ t <> COL_SKIP).
Proof.
  split.
  - intros [] []; cbn; intros H; try reflexivity; discriminate H.
  - intros t. split.
    + intros [[] <-]; split; discriminate.
    + intros [Hlist Hskip]. destruct t; try contradiction.
      * now exists CELL_BLANK.
      * now exists CELL_DATE.
      * now exists CELL_NUMERIC.
      * now exists CELL_TEXT.
Qed.

Lemma as_ColType_embedding_witness :
  CELL_DATE = CELL_DATE /\ exists c : CellType, as_ColType c = COL_TEXT.
Proof.
  split.
  - apply (proj1 as_ColType_embedding CELL_DATE CELL_DATE). reflexivity.
  - apply (proj2 as_ColType_embedding COL_TEXT). split; discriminate.
Defined.

(** ** The date-format test, once more *)

Lemma isDateTime_true_iff (f : Z) (custom : gset Z) :
  isDateTime f custom = true <->
  builtin_date_range f \/ (164 <= f /\ f ∈ custom).
Proof.
  destruct (decide (builtin_date_range f)) as [Hin | Hout].
  - rewrite isDateTime_in_range by assumption. tauto.
  - rewrite isDateTime_out_of_range by assumption.
    destruct (Z.ltb_spec f 164) as [Hlt | Hge].
    + split; [discriminate | intros [? | [? _]]; [contradiction | lia]].
    + unfold set_count. destruct (decide (f ∈ custom)); cbn.
      * split; auto.
      * split; [discriminate | intros [? | [_ ?]]; contradiction].
Qed.

(** A format identifier is a date format exactly when it lies in one of
    the five built-in ranges or is at least 164 and in the custom set. *)
Theorem isDateTime_characterized (f : Z) (custom : gset Z) :
  isDateTime f custom = true <->
  builtin_date_range f \/ (164 <= f /\ f ∈ custom).
Proof. apply isDateTime_true_iff. Qed.

(** Members of the custom set below 164 are never looked at: two custom
    sets with the same members from 164 on give the same answer on every
    format identifier. *)
Theorem isDateTime_custom_below_164_ignored (f : Z) (custom custom' : gset Z) :
  (forall x : Z, 164 <= x -> x ∈ custom <-> x ∈ custom') ->
  isDateTime f custom = isDateTime f custom'.
Proof.
  intros Hsame. apply eq_true_iff_eq.
  rewrite !isDateTime_true_iff.
  split; (intros [Hin | [Hge Hmem]]; [now left | right; split; [assumption |]]);
    now apply (Hsame f Hge).
Qed.

Lemma isDateTime_custom_below_164_ignored_witness :
  isDateTime 5 {[5; 170]} = isDateTime 5 {[170]}.
Proof.
  apply (isDateTime_custom_below_164_ignored 5 {[5; 170]} {[170]}).
  intros x Hx. rewrite !elem_of_union, !elem_of_singleton. lia.
Defined.

(** Adding custom date formats never takes a date format away. *)
Theorem isDateTime_monotone (f : Z) (custom custom' : gset Z) :
  custom ⊆ custom' -> isDateTime f custom = true -> isDateTime f custom' = true.
Proof.
  intros Hsub. rewrite !isDateTime_true_iff.
  intros [Hin | [Hge Hmem]]; [now left | right; split; [assumption |]].
  now apply Hsub.
Qed.

Lemma isDateTime_monotone_witness : isDateTime 170 {[170; 171]} = true.
Proof.
  apply (isDateTime_monotone 170 {[170]} {[170; 171]}).
  - apply (bool_decide_unpack _). vm_compute. exact I.
  - reflexivity.
Defined.

(** ** The classifier, case by case *)

Lemma record_kind (id : Z) :
  label_record id \/ formula_record id \/ numeric_record id \/
  blank_record id \/ ~ recognized id.
Proof.
  unfold label_record, formula_record, numeric_record, blank_record, recognized.
  lia.
Qed.

Lemma unknown_record_message_not_empty (id : Z) :
  unknown_record_message id <> EmptyString.
Proof. discriminate. Qed.

Section ClassifierCases.

Variable cell : xls.st_cell.st_cell_data.
Variable styles : option xls.st_xf.
Variable customDateFormats : gset Z.
Variable na : StringSet.

Lemma cellType_label_eq :
  label_record (xls.st_cell.id cell) ->
  cellType cell styles customDateFormats na =
    Some (if contains_str na (xls.st_cell.str cell) then CELL_BLANK else CELL_TEXT,
          EmptyString).
Proof. intros Hid. enter_case Hid; reflexivity. Qed.

Lemma cellType_formula_eq :
  formula_record (xls.st_cell.id cell) ->
  cellType cell styles customDateFormats na =
    Some (if xls.st_cell.l cell =? 0
          then (if contains_dbl na (xls.st_cell.d cell) then CELL_BLANK else CELL_NUMERIC)
          else (if contains_str na (xls.st_cell.str cell) then CELL_BLANK else CELL_TEXT),
          EmptyString).
Proof.
  intros Hid.
  enter_case Hid; destruct (xls.st_cell.l cell =? 0); try reflexivity;
    destruct (contains_str na (xls.st_cell.str cell)); reflexivity.
Qed.

Lemma cellType_numeric_eq :
  numeric_record (xls.st_cell.id cell) ->
  cellType cell styles customDateFormats na =
    if contains_dbl na (xls.st_cell.d cell) then Some (CELL_BLANK, EmptyString)
    else match styles with
         | None => Some (CELL_NUMERIC, EmptyString)
         | Some table =>
             match xls.xf table !! xls.st_cell.xf cell with
             | Some entry =>
                 Some (if isDateTime (xls.format entry) customDateFormats
                       then CELL_DATE else CELL_NUMERIC, EmptyString)
             | None => None
             end
         end.
Proof.
  intros Hid.
  enter_case Hid; destruct (contains_dbl na (xls.st_cell.d cell)); try reflexivity;
    destruct styles as [table |]; try reflexivity;
    destruct (xls.xf table !! xls.st_cell.xf cell); reflexivity.
Qed.

Lemma cellType_blank_eq :
  blank_record (xls.st_cell.id cell) ->
  cellType cell styles customDateFormats na = Some (CELL_BLANK, EmptyString).
Proof. intros Hid. enter_case Hid; reflexivity. Qed.

Lemma cellType_unknown_eq :
  ~ recognized (xls.st_cell.id cell) ->
  cellType cell styles customDateFormats na =
    Some (CELL_NUMERIC, unknown_record_message (xls.st_cell.id cell)).
Proof.
  unfold recognized, cellType. intros Hid. cbv zeta.
  repeat match goal with
         | |- context [Z.eqb ?a ?b] =>
             destruct (Z.eqb_spec a b) as [Heq | _]; [exfalso; tauto |]
         end.
  reflexivity.
Qed.

End ClassifierCases.

Section ClassifierMore.

Variable cell : xls.st_cell.st_cell_data.
Variable styles : option xls.st_xf.
Variable customDateFormats : gset Z.
Variable na : StringSet.

(** A text-label record (253 or 516) is Blank when its string matches the
    missing-value set and Text otherwise; the numeric payload, the formula
    flag, the style table and the custom formats play no part. *)
Theorem cellType_label_record :
  label_record (xls.st_cell.id cell) ->
  forall (d' : spec_float) (l' : Z) (xf' : nat) styles' customDateFormats',
    cellType (sample_cell (xls.st_cell.id cell) d' l' (xls.st_cell.str cell) xf')
        styles' customDateFormats' na =
      Some (if contains_str na (xls.st_cell.str cell) then CELL_BLANK else CELL_TEXT,
            EmptyString).
Proof.
  intros Hid d' l' xf' styles' customDateFormats'.
  rewrite cellType_label_eq by exact Hid. reflexivity.
Qed.

(** The classifier has no result in one situation only: a numeric-value
    record whose value is not missing, with a style table that is too short
    for the record's style index. *)
Theorem cellType_undefined_iff :
  cellType cell styles customDateFormats na = None <->
  numeric_record (xls.st_cell.id cell) /\
  contains_dbl na (xls.st_cell.d cell) = false /\
  exists table, styles = Some table /\
                (length (xls.xf table) <= xls.st_cell.xf cell)%nat.
Proof.
  destruct (record_kind (xls.st_cell.id cell))
    as [Hkind | [Hkind | [Hkind | [Hkind | Hkind]]]].
  - rewrite cellType_label_eq by assumption.
    split; [discriminate |]. intros [Hnum _].
    unfold label_record, numeric_record in *. lia.
  - rewrite cellType_formula_eq by assumption.
    split; [discriminate |]. intros [Hnum _].
    unfold formula_record, numeric_record in *. lia.
  - rewrite cellType_numeric_eq by assumption.
    destruct (contains_dbl na (xls.st_cell.d cell)).
    + split; [discriminate | intros (_ & ? & _); discriminate].
    + destruct styles as [table |].
      * destruct (xls.xf table !! xls.st_cell.xf cell) as [entry |] eqn:Hentry.
        -- split; [discriminate |]. intros (_ & _ & table' & [= <-] & Hlen).
           apply lookup_ge_None_2 in Hlen. congruence.
        -- split; [| reflexivity]. intros _. repeat split; try assumption.
           exists table. split; [reflexivity | now apply lookup_ge_None_1].
      * split; [discriminate | intros (_ & _ & ? & ? & _); discriminate].
  - rewrite cellType_blank_eq by assumption.
    split; [discriminate |]. intros [Hnum _].
    unfold blank_record, numeric_record in *. lia.
  - rewrite cellType_unknown_eq by assumption.
    split; [discriminate |]. intros [Hnum _].
    unfold recognized, numeric_record in *. lia.
Qed.

(** Without a style table the classifier always has a result, and the
    result is never Date. *)
Theorem cellType_no_styles :
  exists (c : CellType) (out : string),
    cellType cell None customDateFormats na = Some (c, out) /\ c <> CELL_DATE.
Proof.
  destruct (record_kind (xls.st_cell.id cell))
    as [Hkind | [Hkind | [Hkind | [Hkind | Hkind]]]].
  - rewrite cellType_label_eq by assumption.
    destruct (contains_str na (xls.st_cell.str cell));
      eexists _, _; (split; [reflexivity | discriminate]).
  - rewrite cellType_formula_eq by assumption.
    destruct (xls.st_cell.l cell =? 0), (contains_dbl na (xls.st_cell.d cell)),
      (contains_str na (xls.st_cell.str cell));
      eexists _, _; (split; [reflexivity | discriminate]).
  - rewrite cellType_numeric_eq by assumption.
    destruct (contains_dbl na (xls.st_cell.d cell));
      eexists _, _; (split; [reflexivity | discriminate]).
  - rewrite cellType_blank_eq by assumption.
    eexists _, _; (split; [reflexivity | discriminate]).
  - rewrite cellType_unknown_eq by assumption.
    eexists _, _; (split; [reflexivity | discriminate]).
Qed.

(** Date comes from one place only: a numeric-value record whose value is
    not missing and whose style leads to a date format. *)
Theorem cellType_date_origin (out : string) :
  cellType cell styles customDateFormats na = Some (CELL_DATE, out) ->
  out = EmptyString /\
  numeric_record (xls.st_cell.id cell) /\
  contains_dbl na (xls.st_cell.d cell) = false /\
  exists table entry,
    styles = Some table /\
    xls.xf table !! xls.st_cell.xf cell = Some entry /\
    isDateTime (xls.format entry) customDateFormats = true.
Proof.
  destruct (record_kind (xls.st_cell.id cell))
    as [Hkind | [Hkind | [Hkind | [Hkind | Hkind]]]].
  - rewrite cellType_label_eq by assumption.
    destruct (contains_str na (xls.st_cell.str cell)); discriminate.
  - rewrite cellType_formula_eq by assumption.
    destruct (xls.st_cell.l cell =? 0), (contains_dbl na (xls.st_cell.d cell)),
      (contains_str na (xls.st_cell.str cell)); discriminate.
  - rewrite cellType_numeric_eq by assumption.
    destruct (contains_dbl na (xls.st_cell.d cell)) eqn:Hna; [discriminate |].
    destruct styles as [table |]; [| discriminate].
    destruct (xls.xf table !! xls.st_cell.xf cell) as [entry |] eqn:Hentry;
      [| discriminate].
    destruct (isDateTime (xls.format entry) customDateFormats) eqn:Hdate;
      [| discriminate].
    intros [= <-]. repeat split; try assumption. now exists table, entry.
  - rewrite cellType_blank_eq by assumption. discriminate.
  - rewrite cellType_unknown_eq by assumption. discriminate.
Qed.

(** Text comes from a label record, or from a formula record with a string
    result, whose string is not missing. *)
Theorem cellType_text_origin (out : string) :
  cellType cell styles customDateFormats na = Some (CELL_TEXT, out) ->
  out = EmptyString /\
  contains_str na (xls.st_cell.str cell) = false /\
  (label_record (xls.st_cell.id cell) \/
   (formula_record (xls.st_cell.id cell) /\ xls.st_cell.l cell <> 0)).
Proof.
  destruct (record_kind (xls.st_cell.id cell))
    as [Hkind | [Hkind | [Hkind | [Hkind | Hkind]]]].
  - rewrite cellType_label_eq by assumption.
    destruct (contains_str na (xls.st_cell.str cell)); [discriminate |].
    intros [= <-]. auto.
  - rewrite cellType_formula_eq by assumption.
    destruct (Z.eqb_spec (xls.st_cell.l cell) 0).
    + destruct (contains_dbl na (xls.st_cell.d cell)); discriminate.
    + destruct (contains_str na (xls.st_cell.str cell)); [discriminate |].
      intros [= <-]. auto.
  - rewrite cellType_numeric_eq by assumption.
    destruct (contains_dbl na (xls.st_cell.d cell)); [discriminate |].
    destruct styles as [table |]; [| discriminate].
    destruct (xls.xf table !! xls.st_cell.xf cell) as [entry |]; [| discriminate].
    destruct (isDateTime (xls.format entry) customDateFormats); discriminate.
  - rewrite cellType_blank_eq by assumption. discriminate.
  - rewrite cellType_unknown_eq by assumption. discriminate.
Qed.

(** Something is written to [Rcout] exactly for the records that are not
    recognized, and such a record is always Numeric. *)
Theorem cellType_diagnostic (c : CellType) (out : string) :
  cellType cell styles customDateFormats na = Some (c, out) ->
  (out <> EmptyString <-> ~ recognized (xls.st_cell.id cell)) /\
  (out <> EmptyString ->
   c = CELL_NUMERIC /\ out = unknown_record_message (xls.st_cell.id cell)).
Proof.
  assert (forall c', Some (c', EmptyString) = Some (c, out) ->
            recognized (xls.st_cell.id cell) ->
            (out <> EmptyString <-> ~ recognized (xls.st_cell.id cell)) /\
            (out <> EmptyString ->
             c = CELL_NUMERIC /\ out = unknown_record_message (xls.st_cell.id cell)))
    as Hquiet.
  { intros c' [= <- <-] Hrec.
    split; [split |]; intros H; try contradiction; now destruct H. }
  destruct (record_kind (xls.st_cell.id cell))
    as [Hkind | [Hkind | [Hkind | [Hkind | Hkind]]]].
  - rewrite cellType_label_eq by assumption. intros H. apply (Hquiet _ H).
    unfold recognized, label_record in *. lia.
  - rewrite cellType_formula_eq by assumption. intros H. apply (Hquiet _ H).
    unfold recognized, formula_record in *. lia.
  - rewrite cellType_numeric_eq by assumption.
    assert (recognized (xls.st_cell.id cell)) as Hrec
        by (unfold recognized, numeric_record in *; lia).
    destruct (contains_dbl na (xls.st_cell.d cell));
      [intros H; now apply (Hquiet _ H) |].
    destruct styles as [table |]; [| intros H; now apply (Hquiet _ H)].
    destruct (xls.xf table !! xls.st_cell.xf cell) as [entry |]; [| discriminate].
    intros H. now apply (Hquiet _ H).
  - rewrite cellType_blank_eq by assumption. intros H. apply (Hquiet _ H).
    unfold recognized, blank_record in *. lia.
  - rewrite cellType_unknown_eq by assumption. intros [= <- <-].
    split; [| auto]. split; [auto |]. intros _.
    apply unknown_record_message_not_empty.
Qed.

(** Enlarging the set of custom date formats changes a result in one way
    only: a Numeric cell may become a Date. *)
Theorem cellType_custom_monotone (customDateFormats' : gset Z)
    (c : CellType) (out : string) :
  customDateFormats ⊆ customDateFormats' ->
  cellType cell styles customDateFormats na = Some (c, out) ->
  cellType cell styles customDateFormats' na = Some (c, out) \/
  (c = CELL_NUMERIC /\
   cellType cell styles customDateFormats' na = Some (CELL_DATE, out)).
Proof.
  intros Hsub.
  destruct (record_kind (xls.st_cell.id cell))
    as [Hkind | [Hkind | [Hkind | [Hkind | Hkind]]]].
  - rewrite !cellType_label_eq by assumption. auto.
  - rewrite !cellType_formula_eq by assumption. auto.
  - rewrite !cellType_numeric_eq by assumption.
    destruct (contains_dbl na (xls.st_cell.d cell)); [auto |].
    destruct styles as [table |]; [| auto].
    destruct (xls.xf table !! xls.st_cell.xf cell) as [entry |]; [| auto].
    destruct (isDateTime (xls.format entry) customDateFormats) eqn:Hdate.
    + rewrite (proj2 (isDateTime_true_iff _ customDateFormats')); [auto |].
      apply isDateTime_true_iff in Hdate as [Hin | [Hge Hmem]];
        [now left | right; split; [assumption | now apply Hsub]].
    + intros [= <- <-].
      destruct (isDateTime (xls.format entry) customDateFormats'); auto.
  - rewrite !cellType_blank_eq by assumption. auto.
  - rewrite !cellType_unknown_eq by assumption. auto.
Qed.

(** The missing-value set comes first: a recognized record whose string and
    number both match it is Blank, whatever its style says. *)
Theorem cellType_missing_first :
  recognized (xls.st_cell.id cell) ->
  contains_str na (xls.st_cell.str cell) = true ->
  contains_dbl na (xls.st_cell.d cell) = true ->
  cellType cell styles customDateFormats na = Some (CELL_BLANK, EmptyString).
Proof.
  intros Hrec Hstr Hdbl.
  destruct (record_kind (xls.st_cell.id cell))
    as [Hkind | [Hkind | [Hkind | [Hkind | Hkind]]]].
  - rewrite cellType_label_eq by assumption. now rewrite Hstr.
  - rewrite cellType_formula_eq by assumption. rewrite Hstr, Hdbl.
    now destruct (xls.st_cell.l cell =? 0).
  - rewrite cellType_numeric_eq by assumption. now rewrite Hdbl.
  - now rewrite cellType_blank_eq.
  - contradiction.
Qed.

End ClassifierMore.

Lemma cellType_label_record_witness :
  cellType (sample_cell 253 S754_nan 7 "NA" 9) (Some sample_styles) {[200]} na_sample
    = Some (CELL_BLANK, EmptyString).
Proof.
  apply (cellType_label_record (sample_cell 253 forty_two 0 "NA" 0) na_sample
           (or_introl eq_refl) S754_nan 7 9%nat (Some sample_styles) {[200]}).
Defined.

Lemma cellType_date_origin_witness :
  numeric_record 515 /\ contains_dbl na_sample forty_two = false.
Proof.
  destruct (cellType_date_origin
              (sample_cell 515 forty_two 0 EmptyString 1) (Some sample_styles) ∅
              na_sample EmptyString eq_refl) as (_ & Hid & Hna & _).
  split; assumption.
Defined.

Lemma cellType_text_origin_witness :
  contains_str na_sample "abc" = false.
Proof.
  destruct (cellType_text_origin
              (sample_cell 6 forty_two 1 "abc" 0) None ∅ na_sample EmptyString eq_refl)
    as (_ & Hstr & _).
  exact Hstr.
Defined.

Lemma cellType_diagnostic_witness :
  unknown_record_message 999 <> EmptyString <-> ~ recognized 999.
Proof.
  apply (cellType_diagnostic
           (sample_cell 999 forty_two 0 EmptyString 0) None ∅ na_sample
           CELL_NUMERIC (unknown_record_message 999) eq_refl).
Defined.

Lemma cellType_custom_monotone_witness :
  cellType (sample_cell 515 forty_two 0 EmptyString 0)
      (Some {| xls.xf := [ {| xls.format := 170 |} ] |}) {[170]} na_sample
    = Some (CELL_NUMERIC, EmptyString) \/
  (CELL_NUMERIC = CELL_NUMERIC /\
   cellType (sample_cell 515 forty_two 0 EmptyString 0)
       (Some {| xls.xf := [ {| xls.format := 170 |} ] |}) {[170]} na_sample
     = Some (CELL_DATE, EmptyString)).
Proof.
  apply (cellType_custom_monotone
           (sample_cell 515 forty_two 0 EmptyString 0)
           (Some {| xls.xf := [ {| xls.format := 170 |} ] |}) ∅ na_sample {[170]}).
  - apply (bool_decide_unpack _). vm_compute. exact I.
  - reflexivity.
Defined.

Lemma cellType_missing_first_witness :
  cellType (sample_cell 515 S754_nan 0 "NA" 1) (Some sample_styles) ∅ na_sample
    = Some (CELL_BLANK, EmptyString).
Proof.
  apply (cellType_missing_first
           (sample_cell 515 S754_nan 0 "NA" 1) (Some sample_styles) ∅ na_sample).
  - unfold recognized; cbn. lia.
  - reflexivity.
  - reflexivity.
Defined.

(** ** Parsing whole lists *)

Lemma colTypeStrings_loop_desc (ts : list ColType) :
  forall (i : nat) (acc : list ColType),
    colTypeStrings_loop i (colTypeDesc <$> ts) acc = Ok (acc ++ ts).
Proof.
  induction ts as [| t ts IH]; intros i acc.
  - cbn. now rewrite app_nil_r.
  - destruct t; cbn; rewrite IH, <- app_assoc; reflexivity.
Qed.

Lemma colTypeStrings_loop_ok_inv (x : list string) :
  forall (i : nat) (acc res : list ColType),
    colTypeStrings_loop i x acc = Ok res ->
    exists ts, res = acc ++ ts /\ x = colTypeDesc <$> ts.
Proof.
  induction x as [| type rest IH]; intros i acc res.
  - cbn. intros [= <-]. exists []. now rewrite app_nil_r.
  - destruct (colTypeStrings_loop_step i type rest acc)
      as [(t & Ht & ->) | (_ & ->)]; [| discriminate].
    intros Hrest. destruct (IH _ _ _ Hrest) as (ts & -> & ->).
    exists (t :: ts). split; [now rewrite <- app_assoc |].
    cbn. f_equal. symmetry. now apply names_type_colTypeDesc.
Qed.

Lemma colTypeStrings_loop_stop_at (x : list string) :
  forall (k : nat) (s : string) (i : nat) (acc : list ColType),
    x !! k = Some s -> s ∉ vocabulary ->
    Forall (λ s, s ∈ vocabulary) (take k x) ->
    colTypeStrings_loop i x acc = Stop (unknown_type_message s (i + k + 1)).
Proof.
  induction x as [| type rest IH]; intros k s i acc Hk Hs Hpre; [discriminate |].
  destruct (colTypeStrings_loop_step i type rest acc)
    as [(t & Ht & ->) | (Hout & ->)].
  - destruct k as [| k].
    + injection Hk as ->. destruct Hs. exact (names_type_vocabulary _ _ Ht).
    + cbn in Hk, Hpre. apply Forall_cons in Hpre as [_ Hpre].
      rewrite (IH k s (S i) _ Hk Hs Hpre). do 2 f_equal. lia.
  - destruct k as [| k].
    + injection Hk as ->. do 2 f_equal. lia.
    + cbn in Hpre. apply Forall_cons in Hpre as [Hin _]. contradiction.
Qed.

Lemma colTypeStrings_loop_stop_inv (x : list string) :
  forall (i : nat) (acc : list ColType) (m : string),
    colTypeStrings_loop i x acc = Stop m ->
    exists (k : nat) (s : string),
      x !! k = Some s /\ (s ∉ vocabulary) /\
      Forall (λ s, s ∈ vocabulary) (take k x) /\
      m = unknown_type_message s (i + k + 1).
Proof.
  induction x as [| type rest IH]; intros i acc m; [discriminate |].
  destruct (colTypeStrings_loop_step i type rest acc)
    as [(t & Ht & ->) | (Hout & ->)].
  - intros Hrest. destruct (IH _ _ _ Hrest) as (k & s & Hk & Hs & Hpre & ->).
    exists (S k), s. repeat split; try assumption.
    + cbn. constructor; [exact (names_type_vocabulary _ _ Ht) | assumption].
    + do 2 f_equal. lia.
  - intros [= <-]. exists 0%nat, type. repeat split; try assumption.
    + constructor.
    + do 2 f_equal. lia.
Qed.

Lemma colTypeStrings_loop_app (x y : list string) :
  forall (i : nat) (acc : list ColType),
    colTypeStrings_loop i (x ++ y) acc =
    match colTypeStrings_loop i x acc with
    | Ok types => colTypeStrings_loop (i + length x) y types
    | Stop m => Stop m
    end.
Proof.
  induction x as [| type rest IH]; intros i acc.
  - cbn. f_equal. lia.
  - rewrite <- app_comm_cons.
    destruct (colTypeStrings_loop_step i type (rest ++ y) acc)
      as [(t & Ht & ->) | (Hout & ->)];
      destruct (colTypeStrings_loop_step i type rest acc)
        as [(t' & Ht' & ->) | (Hout' & ->)].
    + apply names_type_colTypeDesc in Ht, Ht'.
      assert (t = t') as <- by (destruct t, t'; cbn in *; congruence).
      rewrite IH. cbn [length].
      replace (S i + length rest)%nat with (i + S (length rest))%nat by lia.
      reflexivity.
    + destruct Hout'. exact (names_type_vocabulary _ _ Ht).
    + destruct Hout. exact (names_type_vocabulary _ _ Ht').
    + reflexivity.
Qed.

(** Parsing a whole list inverts printing it: the call succeeds with
    [types] exactly when the input is the list of the printed forms of
    [types].  In particular the result has one type per input string. *)
Theorem colTypeStrings_Ok_iff (x : list string) (types : list ColType) :
  colTypeStrings x = Ok types <-> x = colTypeDesc <$> types.
Proof.
  unfold colTypeStrings. split.
  - intros H. apply colTypeStrings_loop_ok_inv in H as (ts & -> & ->). reflexivity.
  - intros ->. apply colTypeStrings_loop_desc.
Qed.

(** Every failure reports a string of the input that is not in the
    vocabulary, at its position counted from one, and all strings before it
    are in the vocabulary; the position lies between 1 and the length of
    the input. *)
Theorem colTypeStrings_Stop_inv (x : list string) (m : string) :
  colTypeStrings x = Stop m ->
  exists (k : nat) (s : string),
    x !! k = Some s /\ (s ∉ vocabulary) /\
    Forall (λ s, s ∈ vocabulary) (take k x) /\
    m = unknown_type_message s (k + 1) /\
    (1 <= k + 1 <= length x)%nat.
Proof.
  intros H. apply colTypeStrings_loop_stop_inv in H as (k & s & Hk & Hs & Hpre & ->).
  exists k, s. repeat split; try assumption; try lia.
  apply lookup_lt_Some in Hk. lia.
Qed.

(** Parsing a concatenation: a failure in the first part is the failure of
    the whole; two successes concatenate; a failure in the second part is
    reported at its position moved by the length of the first. *)
Theorem colTypeStrings_app (x y : list string) :
  (forall m, colTypeStrings x = Stop m -> colTypeStrings (x ++ y) = Stop m) /\
  (forall tx ty, colTypeStrings x = Ok tx -> colTypeStrings y = Ok ty ->
                 colTypeStrings (x ++ y) = Ok (tx ++ ty)) /\
  (forall tx k s, colTypeStrings x = Ok tx ->
                  y !! k = Some s -> s ∉ vocabulary ->
                  Forall (λ s, s ∈ vocabulary) (take k y) ->
                  colTypeStrings (x ++ y) =
                    Stop (unknown_type_message s (length x + k + 1))).
Proof.
  unfold colTypeStrings. repeat split.
  - intros m Hx. now rewrite colTypeStrings_loop_app, Hx.
  - intros tx ty Hx Hy. rewrite colTypeStrings_loop_app, Hx.
    apply colTypeStrings_loop_ok_inv in Hy as (ts & -> & ->).
    apply colTypeStrings_loop_desc.
  - intros tx k s Hx Hk Hs Hpre. rewrite colTypeStrings_loop_app, Hx.
    now apply colTypeStrings_loop_stop_at.
Qed.

Lemma colTypeStrings_Stop_inv_witness :
  exists (k : nat) (s : string),
    ["date"; "Date"] !! k = Some s /\ (s ∉ vocabulary) /\
    Forall (λ s, s ∈ vocabulary) (take k ["date"; "Date"]) /\
    "Unknown type 'Date' at position 2" = unknown_type_message s (k + 1) /\
    (1 <= k + 1 <= 2)%nat.
Proof.
  apply (colTypeStrings_Stop_inv ["date"; "Date"] "Unknown type 'Date' at position 2").
  reflexivity.
Defined.

Lemma colTypeStrings_app_witness :
  colTypeStrings (["text"] ++ ["skip"; "nope"]) =
    Stop "Unknown type 'nope' at position 3".
Proof.
  apply (proj2 (proj2 (colTypeStrings_app ["text"] ["skip"; "nope"]))
           [COL_TEXT] 1%nat "nope").
  - reflexivity.
  - reflexivity.
  - apply (bool_decide_unpack _). vm_compute. exact I.
  - apply (bool_decide_unpack _). vm_compute. exact I.
Defined.

(** ** More on removing skipped columns *)

Section RemoveSkippedMore.

Context {RObject : Type} (R_NilValue : RObject).

Implicit Types (cols : list RObject) (names : list string) (types : list ColType).

Lemma removeSkippedColumns_kept cols names types :
  length cols = length names -> length cols = length types ->
  removeSkippedColumns R_NilValue cols names types =
    Some ((kept cols names types).*1.*1, (kept cols names types).*1.*2).
Proof.
  intros Hnames Htypes.
  assert (length (kept cols names types) =
          length (filter (λ t, t ≠ COL_SKIP) types)) as Hlen
      by (now rewrite <- (kept_types cols names types Hnames Htypes), length_fmap).
  unfold removeSkippedColumns. rewrite Htypes.
  pose proof (count_loop_spec types types [] 0%nat eq_refl) as Hcount.
  cbn [length app] in Hcount. rewrite Hcount.
  cbn [mbind option_bind Nat.add]. rewrite <- Hlen.
  exact (copy_loop_spec R_NilValue cols names types types [] cols [] names [] [] []
           eq_refl eq_refl eq_refl eq_refl eq_refl
           Htypes (eq_trans (eq_sym Hnames) Htypes) eq_refl).
Qed.

Lemma kept_none_skipped cols names types :
  length cols = length names -> length cols = length types ->
  Forall (λ t, t ≠ COL_SKIP) types ->
  (kept cols names types).*1.*1 = cols /\ (kept cols names types).*1.*2 = names.
Proof.
  revert names types.
  induction cols as [| c cs IH]; intros [| name ns] [| t ts] Hn Ht Hall;
    try discriminate; [split; reflexivity |].
  injection Hn as Hn. injection Ht as Ht.
  apply Forall_cons in Hall as [Hhead Hall].
  rewrite kept_cons, decide_False by assumption.
  destruct (IH ns ts Hn Ht Hall) as [Hc Hnm]. cbn. now rewrite Hc, Hnm.
Qed.

Lemma kept_all_skipped cols names types :
  Forall (λ t, t = COL_SKIP) types -> kept cols names types = [].
Proof.
  revert names types.
  induction cols as [| c cs IH]; intros [| name ns] [| t ts] Hall; try reflexivity.
  apply Forall_cons in Hall as [-> Hall].
  rewrite kept_cons, decide_True by reflexivity. now apply IH.
Qed.

Lemma kept_app cols1 cols2 names1 names2 types1 types2 :
  length cols1 = length names1 -> length cols1 = length types1 ->
  kept (cols1 ++ cols2) (names1 ++ names2) (types1 ++ types2) =
  kept cols1 names1 types1 ++ kept cols2 names2 types2.
Proof.
  intros Hn Ht. unfold kept.
  rewrite !zip_with_app, filter_app; try assumption; [reflexivity |].
  rewrite length_zip_with. lia.
Qed.

Lemma count_loop_short types :
  forall (n j p_out : nat),
    (j <= length types < j + n)%nat -> count_loop types n j p_out = None.
Proof.
  induction n as [| n IH]; intros j p_out Hlen.
  - lia.
  - cbn [count_loop]. destruct (types !! j) as [t |] eqn:Ht; [| reflexivity].
    cbn [mbind option_bind]. apply lookup_lt_Some in Ht. apply IH. lia.
Qed.

(** When no type is [COL_SKIP] the filter hands back the columns and the
    names as they came; when every type is [COL_SKIP] nothing is left. *)
Theorem removeSkippedColumns_extremes cols names types :
  length cols = length names -> length cols = length types ->
  (Forall (λ t, t ≠ COL_SKIP) types ->
   removeSkippedColumns R_NilValue cols names types = Some (cols, names)) /\
  (Forall (λ t, t = COL_SKIP) types ->
   removeSkippedColumns R_NilValue cols names types = Some ([], [])).
Proof.
  intros Hn Ht. rewrite removeSkippedColumns_kept by assumption. split; intros Hall.
  - destruct (kept_none_skipped cols names types Hn Ht Hall) as [-> ->]. reflexivity.
  - now rewrite kept_all_skipped.
Qed.

(** Filtering a second time, with the types that were kept, changes
    nothing. *)
Theorem removeSkippedColumns_again cols names types out names_out :
  length cols = length names -> length cols = length types ->
  removeSkippedColumns R_NilValue cols names types = Some (out, names_out) ->
  removeSkippedColumns R_NilValue out names_out (filter (λ t, t ≠ COL_SKIP) types)
    = Some (out, names_out).
Proof.
  intros Hn Ht. rewrite removeSkippedColumns_kept by assumption. intros [= <- <-].
  pose proof (kept_types cols names types Hn Ht) as Hkept.
  assert (length (kept cols names types).*1.*1 = length (kept cols names types).*1.*2)
    as Hn' by (now rewrite !length_fmap).
  assert (length (kept cols names types).*1.*1 =
          length (filter (λ t, t ≠ COL_SKIP) types))
    as Ht' by (now rewrite <- Hkept, !length_fmap).
  rewrite removeSkippedColumns_kept by assumption.
  assert (Forall (λ t, t ≠ COL_SKIP) (filter (λ t, t ≠ COL_SKIP) types)) as Hall
      by (apply Forall_forall; intros t Hin; now apply list_elem_of_filter in Hin).
  destruct (kept_none_skipped _ _ _ Hn' Ht' Hall) as [-> ->]. reflexivity.
Qed.

(** Filtering two tables laid side by side gives the two filtered tables
    side by side. *)
Theorem removeSkippedColumns_app cols1 cols2 names1 names2 types1 types2
    out1 out2 names_out1 names_out2 :
  length cols1 = length names1 -> length cols1 = length types1 ->
  length cols2 = length names2 -> length cols2 = length types2 ->
  removeSkippedColumns R_NilValue cols1 names1 types1 = Some (out1, names_out1) ->
  removeSkippedColumns R_NilValue cols2 names2 types2 = Some (out2, names_out2) ->
  removeSkippedColumns R_NilValue (cols1 ++ cols2) (names1 ++ names2) (types1 ++ types2)
    = Some (out1 ++ out2, names_out1 ++ names_out2).
Proof.
  intros Hn1 Ht1 Hn2 Ht2.
  rewrite !removeSkippedColumns_kept by (rewrite ?length_app; lia).
  intros [= <- <-] [= <- <-].
  rewrite kept_app by assumption. now rewrite !fmap_app.
Qed.

(** The kept columns are a subsequence of the columns and the kept names a
    subsequence of the names, of one length, and never longer than the
    input. *)
Theorem removeSkippedColumns_sublist cols names types out names_out :
  length cols = length names -> length cols = length types ->
  removeSkippedColumns R_NilValue cols names types = Some (out, names_out) ->
  out `sublist_of` cols /\ names_out `sublist_of` names /\
  length out = length names_out /\ (length out <= length cols)%nat.
Proof.
  intros Hn Ht. rewrite removeSkippedColumns_kept by assumption. intros [= <- <-].
  assert ((kept cols names types).*1 `sublist_of` zip cols names) as Hsub.
  { unfold kept.
    rewrite <- (fst_zip (zip cols names) types) at 2
      by (rewrite length_zip_with; lia).
    apply fmap_sublist, sublist_filter. }
  repeat split.
  - rewrite <- (fst_zip cols names) at 2 by lia. now apply fmap_sublist.
  - rewrite <- (snd_zip cols names) at 2 by lia. now apply fmap_sublist.
  - now rewrite !length_fmap.
  - rewrite <- (fst_zip cols names) at 2 by lia.
    now apply sublist_length, fmap_sublist.
Qed.

(** With fewer types than columns the first loop reads [types[j]] past the
    end of the vector. *)
Theorem removeSkippedColumns_short_types cols names types :
  (length types < length cols)%nat ->
  removeSkippedColumns R_NilValue cols names types = None.
Proof.
  intros Hlen. unfold removeSkippedColumns.
  rewrite count_loop_short by lia. reflexivity.
Qed.

End RemoveSkippedMore.

(** ** Format strings *)

Lemma date_letter_true_iff (c : ascii) :
  date_letter c = true <-> c ∈ date_letters.
Proof.
  unfold date_letter, date_letters.
  rewrite !orb_true_iff, !Ascii.eqb_eq, !elem_of_cons, elem_of_nil. tauto.
Qed.

(** A format string looks like a date format exactly when one of its
    characters is one of the ten letters; so the empty string and a string
    of digits and punctuation do not. *)
Theorem isDateFormat_true_iff (x : string) :
  isDateFormat x = true <->
  exists c : ascii, c ∈ String.list_ascii_of_string x /\ c ∈ date_letters.
Proof.
  induction x as [| a x IH]; cbn [isDateFormat String.list_ascii_of_string].
  - split; [discriminate | intros (c & Hc & _); now apply elem_of_nil in Hc].
  - destruct (date_letter a) eqn:Ha.
    + split; [intros _ | reflexivity].
      exists a. split; [left | now apply date_letter_true_iff].
    + rewrite IH. split.
      * intros (c & Hc & Hl). exists c. split; [now right | assumption].
      * intros (c & Hc & Hl). apply elem_of_cons in Hc as [-> | Hc].
        -- apply date_letter_true_iff in Hl. congruence.
        -- now exists c.
Qed.

(** A concatenation looks like a date format exactly when one of its two
    parts does. *)
Theorem isDateFormat_app (x y : string) :
  isDateFormat (x +:+ y) = isDateFormat x || isDateFormat y.
Proof.
  induction x as [| a x IH]; [reflexivity |].
  change (String a x +:+ y) with (String a (x +:+ y)).
  cbn [isDateFormat]. destruct (date_letter a); [reflexivity | exact IH].
Qed.

Example isDateFormat_iso_date : isDateFormat "yyyy-mm-dd" = true.
Proof. reflexivity. Qed.

Example isDateFormat_number : isDateFormat "#,##0.00" = false.
Proof. reflexivity. Qed.

Example isDateFormat_empty : isDateFormat EmptyString = false.
Proof. reflexivity. Qed.

(** The test is on letters alone: the name of a plain number format that
    holds one of them passes it. *)
Example isDateFormat_Standard : isDateFormat "Standard" = true.
Proof. reflexivity. Qed.

(** ** Making columns *)

Lemma vector_length_nonneg (n : Z) :
  0 <= n -> Rcpp.vector_length n = Some (Z.to_nat n).
Proof.
  intros Hn. unfold Rcpp.vector_length.
  destruct (Z.ltb_spec n 0); [lia | reflexivity].
Qed.

Lemma vector_length_neg (n : Z) : n < 0 -> Rcpp.vector_length n = None.
Proof.
  intros Hn. unfold Rcpp.vector_length.
  destruct (Z.ltb_spec n 0); [reflexivity | lia].
Qed.

Lemma makeCol_nonneg (type : ColType) (n : Z) :
  0 <= n -> exists col, makeCol type n = Some col.
Proof.
  intros Hn. unfold makeCol.
  destruct type; rewrite ?vector_length_nonneg by assumption; cbn; eauto.
Qed.

Lemma makeCol_NilValue (type : ColType) (n : Z) :
  makeCol type n = Some Rcpp.R_NilValue <-> type = COL_BLANK \/ type = COL_SKIP.
Proof.
  unfold makeCol. split.
  - destruct type; auto; destruct (Rcpp.vector_length n); discriminate.
  - intros [-> | ->]; reflexivity.
Qed.

(** For a length that is not negative [makeCol] returns a column: [NULL]
    for Blank and Skip and for them only, and otherwise a vector of that
    length.  Every cell of the column is missing, and the vector is of the
    kind of its type: doubles for Date and Numeric, strings for Text, and
    for List a list whose slots each hold one missing logical. *)
Theorem makeCol_spec (type : ColType) (n : Z) :
  0 <= n ->
  exists col : Rcpp.RObject,
    makeCol type n = Some col /\
    (col = Rcpp.R_NilValue <-> type = COL_BLANK \/ type = COL_SKIP) /\
    (type <> COL_BLANK -> type <> COL_SKIP -> Rcpp.xlength col = Z.to_nat n) /\
    all_missing col /\
    (type = COL_DATE ->
     exists attrs, col = Rcpp.NumericVector (replicate (Z.to_nat n) None) attrs) /\
    (type = COL_NUMERIC ->
     col = Rcpp.NumericVector (replicate (Z.to_nat n) None) []) /\
    (type = COL_TEXT ->
     col = Rcpp.CharacterVector (replicate (Z.to_nat n) None) []) /\
    (type = COL_LIST ->
     col = Rcpp.List (replicate (Z.to_nat n) (Rcpp.LogicalVector [None] [])) []).
Proof.
  intros Hn. unfold makeCol.
  destruct type; rewrite ?vector_length_nonneg by assumption;
    cbn [mbind option_bind Rcpp.attr];
    eexists; (split; [reflexivity |]);
    (split; [| split; [| split; [| split; [| split; [| split]]]]]);
    try discriminate;
    try (intros; contradiction);
    try (intros; cbn; apply length_replicate);
    try (cbn; apply Forall_replicate; reflexivity);
    try exact I;
    try (split; [discriminate | intros [? | ?]; discriminate]);
    try (split; auto; fail);
    try (intros _; reflexivity).
  intros _. eexists. reflexivity.
Qed.

Lemma makeCol_spec_witness :
  makeCol COL_TEXT 3 = Some (Rcpp.CharacterVector [None; None; None] []) /\
  makeCol COL_LIST 2 =
    Some (Rcpp.List [Rcpp.LogicalVector [None] []; Rcpp.LogicalVector [None] []] []).
Proof.
  split.
  - destruct (makeCol_spec COL_TEXT 3) as (col & Hmake & _ & _ & _ & _ & _ & Htext & _).
    + lia.
    + rewrite Hmake, (Htext eq_refl). reflexivity.
  - destruct (makeCol_spec COL_LIST 2) as (col & Hmake & _ & _ & _ & _ & _ & _ & Hlist).
    + lia.
    + rewrite Hmake, (Hlist eq_refl). reflexivity.
Defined.

(** [makeCol] has no result exactly when a vector of negative length is
    asked for; Blank and Skip allocate nothing and take any length. *)
Theorem makeCol_undefined_iff (type : ColType) (n : Z) :
  makeCol type n = None <-> n < 0 /\ type <> COL_BLANK /\ type <> COL_SKIP.
Proof.
  split.
  - intros Hnone. destruct (Z.lt_ge_cases n 0) as [Hneg | Hpos].
    + repeat split; [assumption | |]; intros ->; discriminate.
    + destruct (makeCol_nonneg type n Hpos) as [col Hcol]. congruence.
  - intros (Hneg & Hblank & Hskip). unfold makeCol.
    destruct type; try contradiction; now rewrite vector_length_neg.
Qed.

(** Only a Date column carries attributes: the classes [POSIXct] and
    [POSIXt] and the time zone [UTC]; its cells are those of the Numeric
    column of the same length. *)
Theorem makeCol_attributes (type : ColType) (n : Z) (col : Rcpp.RObject) :
  makeCol type n = Some col ->
  (Rcpp.attributes col <> [] <-> type = COL_DATE) /\
  (type = COL_DATE ->
   Rcpp.attributes col =
     [("class", Rcpp.CharacterVector [Some "POSIXct"; Some "POSIXt"] []);
      ("tzone", Rcpp.CharacterVector [Some "UTC"] [])] /\
   exists data, col = Rcpp.NumericVector data (Rcpp.attributes col) /\
                makeCol COL_NUMERIC n = Some (Rcpp.NumericVector data [])).
Proof.
  unfold makeCol.
  destruct type; destruct (Rcpp.vector_length n) as [len |];
    cbn [mbind option_bind Rcpp.attr Rcpp.set_attribute String.eqb];
    intros [= <-]; cbn [Rcpp.attributes];
    (split; [split; [try (intros H; now destruct H); intros _; reflexivity
                    | try discriminate; intros _; discriminate]
            | try discriminate]).
  intros _. split; [reflexivity |]. eexists. split; reflexivity.
Qed.

Lemma makeCol_attributes_witness :
  Rcpp.attributes
    (Rcpp.NumericVector [None; None]
       [("class", Rcpp.CharacterVector [Some "POSIXct"; Some "POSIXt"] []);
        ("tzone", Rcpp.CharacterVector [Some "UTC"] [])]) =
    [("class", Rcpp.CharacterVector [Some "POSIXct"; Some "POSIXt"] []);
     ("tzone", Rcpp.CharacterVector [Some "UTC"] [])] /\
  exists data,
    Rcpp.NumericVector [None; None]
      [("class", Rcpp.CharacterVector [Some "POSIXct"; Some "POSIXt"] []);
       ("tzone", Rcpp.CharacterVector [Some "UTC"] [])] =
    Rcpp.NumericVector data
      (Rcpp.attributes
         (Rcpp.NumericVector [None; None]
            [("class", Rcpp.CharacterVector [Some "POSIXct"; Some "POSIXt"] []);
             ("tzone", Rcpp.CharacterVector [Some "UTC"] [])])) /\
    makeCol COL_NUMERIC 2 = Some (Rcpp.NumericVector data []).
Proof.
  apply (proj2 (makeCol_attributes COL_DATE 2
           (Rcpp.NumericVector [None; None]
              [("class", Rcpp.CharacterVector [Some "POSIXct"; Some "POSIXt"] []);
               ("tzone", Rcpp.CharacterVector [Some "UTC"] [])])
           eq_refl) eq_refl).
Defined.

(** ** What the filter reads, and what it keeps *)

Section RemoveSkippedReads.

Context {RObject : Type} (R_NilValue : RObject).

Implicit Types (cols : list RObject) (names : list string) (types : list ColType).

Lemma count_loop_ext types types' :
  forall (n j p_out : nat),
    (forall k, (j <= k < j + n)%nat -> types !! k = types' !! k) ->
    count_loop types n j p_out = count_loop types' n j p_out.
Proof.
  induction n as [| n IH]; intros j p_out Hsame; [reflexivity |].
  cbn [count_loop]. rewrite <- (Hsame j) by lia.
  destruct (types !! j) as [t |]; [| reflexivity].
  cbn [mbind option_bind]. apply IH. intros k Hk. apply Hsame. lia.
Qed.

Lemma copy_loop_ext cols names names' types types' :
  forall (n j : nat) (out : list RObject) (names_out : list string) (j_out : nat),
    (forall k, (j <= k < j + n)%nat ->
               types !! k = types' !! k /\ names !! k = names' !! k) ->
    copy_loop cols names types n j out names_out j_out =
    copy_loop cols names' types' n j out names_out j_out.
Proof.
  induction n as [| n IH]; intros j out names_out j_out Hsame; [reflexivity |].
  cbn [copy_loop]. destruct (Hsame j) as [<- <-]; [lia |].
  assert (forall k, (S j <= k < S j + n)%nat ->
            types !! k = types' !! k /\ names !! k = names' !! k) as Hrest
      by (intros k Hk; apply Hsame; lia).
  destruct (types !! j) as [t |]; [| reflexivity]. cbn [mbind option_bind].
  destruct (decide (t = COL_SKIP)); [now apply IH |].
  destruct (cols !! j) as [c |]; [| reflexivity]. cbn [mbind option_bind].
  destruct (store out j_out c) as [out' |]; [| reflexivity]. cbn [mbind option_bind].
  destruct (names !! j) as [name |]; [| reflexivity]. cbn [mbind option_bind].
  destruct (store names_out j_out name) as [names_out' |]; [| reflexivity].
  cbn [mbind option_bind]. now apply IH.
Qed.

(** The number of columns decides how far the names and the types are
    read: entries beyond it are ignored. *)
Theorem removeSkippedColumns_extra_ignored cols names types
    (more_names : list string) (more_types : list ColType) :
  (length cols <= length names)%nat -> (length cols <= length types)%nat ->
  removeSkippedColumns R_NilValue cols (names ++ more_names) (types ++ more_types) =
  removeSkippedColumns R_NilValue cols names types.
Proof.
  intros Hn Ht. unfold removeSkippedColumns.
  rewrite (count_loop_ext (types ++ more_types) types)
    by (intros k Hk; apply lookup_app_l; lia).
  destruct (count_loop types (length cols) 0 0) as [p_out |]; [| reflexivity].
  cbn [mbind option_bind]. apply copy_loop_ext.
  intros k Hk. split; apply lookup_app_l; lia.
Qed.

(** A column and a name leave the filter together exactly when they
    entered it at one index whose type is not [COL_SKIP]: every such column
    is kept, with its own name, and nothing else is. *)
Theorem removeSkippedColumns_pairs cols names types out names_out :
  length cols = length names -> length cols = length types ->
  removeSkippedColumns R_NilValue cols names types = Some (out, names_out) ->
  forall (c : RObject) (name : string),
    (c, name) ∈ zip out names_out <->
    exists (j : nat) (t : ColType),
      cols !! j = Some c /\ names !! j = Some name /\
      types !! j = Some t /\ t <> COL_SKIP.
Proof.
  intros Hn Ht Hrun c name.
  assert (zip out names_out = (kept cols names types).*1) as ->.
  { unfold removeSkippedColumns in Hrun.
    pose proof (count_loop_spec types types [] 0%nat eq_refl) as Hcount.
    cbn [length app] in Hcount. rewrite Ht, Hcount in Hrun.
    cbn [mbind option_bind Nat.add] in Hrun.
    rewrite <- (kept_types cols names types Hn Ht), length_fmap in Hrun.
    pose proof (copy_loop_spec R_NilValue cols names types types [] cols [] names
                  [] [] [] eq_refl eq_refl eq_refl eq_refl eq_refl
                  Ht (eq_trans (eq_sym Hn) Ht) eq_refl) as Hcopy.
    cbn [length app] in Hcopy. rewrite Hcopy in Hrun.
    injection Hrun as <- <-. apply zip_fst_snd. }
  rewrite list_elem_of_fmap. unfold kept. split.
  - intros ([[c' name'] t] & [= <- <-] & Hin).
    apply list_elem_of_filter in Hin as [Hskip Hin].
    apply elem_of_lookup_zip_with in Hin as (j & [c1 n1] & t1 & [= <- <- <-] & Hpair & Htype).
    apply lookup_zip_with_Some in Hpair as (c2 & n2 & [= <- <-] & Hc & Hname).
    now exists j, t.
  - intros (j & t & Hc & Hname & Htype & Hskip).
    exists (c, name, t). split; [reflexivity |].
    apply list_elem_of_filter. split; [exact Hskip |].
    apply elem_of_lookup_zip_with. exists j, (c, name), t.
    repeat split; [| exact Htype].
    apply lookup_zip_with_Some. now exists c, name.
Qed.

End RemoveSkippedReads.

Lemma removeSkippedColumns_extremes_witness :
  removeSkippedColumns "NULL" ["c1"; "c2"] ["a"; "b"] [COL_TEXT; COL_BLANK]
    = Some (["c1"; "c2"], ["a"; "b"]) /\
  removeSkippedColumns "NULL" ["c1"; "c2"] ["a"; "b"] [COL_SKIP; COL_SKIP]
    = Some ([], []).
Proof.
  split.
  - apply (removeSkippedColumns_extremes "NULL" ["c1"; "c2"] ["a"; "b"]
             [COL_TEXT; COL_BLANK]); try reflexivity.
    apply (bool_decide_unpack _). vm_compute. exact I.
  - apply (removeSkippedColumns_extremes "NULL" ["c1"; "c2"] ["a"; "b"]
             [COL_SKIP; COL_SKIP]); try reflexivity.
    apply (bool_decide_unpack _). vm_compute. exact I.
Defined.

Lemma removeSkippedColumns_again_witness :
  removeSkippedColumns "NULL" ["c1"; "c3"] ["a"; "c"]
    (filter (λ t, t ≠ COL_SKIP) [COL_TEXT; COL_SKIP; COL_NUMERIC])
    = Some (["c1"; "c3"], ["a"; "c"]).
Proof.
  apply (removeSkippedColumns_again "NULL" ["c1"; "c2"; "c3"] ["a"; "b"; "c"]
           [COL_TEXT; COL_SKIP; COL_NUMERIC]); reflexivity.
Defined.

Lemma removeSkippedColumns_app_witness :
  removeSkippedColumns "NULL" (["c1"; "c2"] ++ ["c3"]) (["a"; "b"] ++ ["c"])
    ([COL_SKIP; COL_DATE] ++ [COL_LIST]) = Some (["c2"] ++ ["c3"], ["b"] ++ ["c"]).
Proof.
  apply (removeSkippedColumns_app "NULL" ["c1"; "c2"] ["c3"] ["a"; "b"] ["c"]
           [COL_SKIP; COL_DATE] [COL_LIST]); reflexivity.
Defined.

Lemma removeSkippedColumns_sublist_witness :
  ["c1"; "c3"] `sublist_of` ["c1"; "c2"; "c3"] /\
  ["a"; "c"] `sublist_of` ["a"; "b"; "c"] /\
  length ["c1"; "c3"] = length ["a"; "c"] /\
  (length ["c1"; "c3"] <= length ["c1"; "c2"; "c3"])%nat.
Proof.
  apply (removeSkippedColumns_sublist "NULL" ["c1"; "c2"; "c3"] ["a"; "b"; "c"]
           [COL_TEXT; COL_SKIP; COL_NUMERIC]); reflexivity.
Defined.

Lemma removeSkippedColumns_short_types_witness :
  removeSkippedColumns "NULL" ["c1"; "c2"] ["a"; "b"] [COL_TEXT] = None.
Proof.
  apply (removeSkippedColumns_short_types "NULL" ["c1"; "c2"] ["a"; "b"] [COL_TEXT]).
  cbn. lia.
Defined.

Lemma removeSkippedColumns_extra_ignored_witness :
  removeSkippedColumns "NULL" ["c1"; "c2"] (["a"; "b"] ++ ["c"])
    ([COL_SKIP; COL_TEXT] ++ [COL_DATE; COL_LIST]) =
  removeSkippedColumns "NULL" ["c1"; "c2"] ["a"; "b"] [COL_SKIP; COL_TEXT].
Proof.
  apply (removeSkippedColumns_extra_ignored "NULL" ["c1"; "c2"] ["a"; "b"]
           [COL_SKIP; COL_TEXT] ["c"] [COL_DATE; COL_LIST]); cbn; lia.
Defined.

Lemma removeSkippedColumns_pairs_witness :
  ("c3", "c") ∈ zip ["c1"; "c3"] ["a"; "c"] <->
  exists (j : nat) (t : ColType),
    ["c1"; "c2"; "c3"] !! j = Some "c3" /\ ["a"; "b"; "c"] !! j = Some "c" /\
    [COL_TEXT; COL_SKIP; COL_NUMERIC] !! j = Some t /\ t <> COL_SKIP.
Proof.
  apply (removeSkippedColumns_pairs "NULL" ["c1"; "c2"; "c3"] ["a"; "b"; "c"]
           [COL_TEXT; COL_SKIP; COL_NUMERIC] ["c1"; "c3"] ["a"; "c"]); reflexivity.
Defined.

(** ** Making columns and then removing the skipped ones *)

Lemma kept_Forall2 {A : Type} (R : ColType -> A -> Prop)
    (cols : list A) (names : list string) (types : list ColType) :
  Forall2 R types cols -> length cols = length names ->
  Forall2 R (filter (λ t, t ≠ COL_SKIP) types) (kept cols names types).*1.*1.
Proof.
  intros Hrel. revert names.
  induction Hrel as [| t c ts cs Hhead _ IH]; intros [| name ns] Hn;
    try discriminate; [constructor |].
  injection Hn as Hn. rewrite kept_cons, filter_cons.
  destruct (decide (t = COL_SKIP)) as [-> | Hskip].
  - rewrite decide_False by (intros H; now apply H). now apply IH.
  - rewrite decide_True by assumption. cbn. constructor; [assumption | now apply IH].
Qed.

Lemma makeCol_all (n : Z) (types : list ColType) :
  0 <= n -> exists cols, mapM (λ t, makeCol t n) types = Some cols.
Proof.
  intros Hn. induction types as [| t ts [cols IH]].
  - now exists [].
  - destruct (makeCol_nonneg t n Hn) as [col Hcol].
    exists (col :: cols). apply mapM_Some. constructor; [assumption |].
    now apply mapM_Some.
Qed.

(** Columns made for a list of types and then filtered are the columns
    made for the types other than [COL_SKIP].  The [NULL] made for a Blank
    column is not removed: the result holds a [NULL] exactly when one of
    the types is [COL_BLANK]. *)
Theorem makeCol_removeSkippedColumns (n : Z) (names : list string)
    (types : list ColType) :
  0 <= n -> length names = length types ->
  exists (cols out : list Rcpp.RObject) (names_out : list string),
    mapM (λ t, makeCol t n) types = Some cols /\
    removeSkippedColumns Rcpp.R_NilValue cols names types = Some (out, names_out) /\
    mapM (λ t, makeCol t n) (filter (λ t, t ≠ COL_SKIP) types) = Some out /\
    (Rcpp.R_NilValue ∈ out <-> COL_BLANK ∈ types).
Proof.
  intros Hn Hlen. destruct (makeCol_all n types Hn) as [cols Hcols].
  pose proof (proj1 (mapM_Some _ _ _) Hcols) as Hrel.
  assert (length cols = length types) as Ht
      by (symmetry; exact (Forall2_length _ _ _ Hrel)).
  assert (length cols = length names) as Hnames by lia.
  pose proof (kept_Forall2 _ cols names types Hrel Hnames) as Hkept.
  exists cols, (kept cols names types).*1.*1, (kept cols names types).*1.*2.
  split; [exact Hcols |].
  split; [now apply removeSkippedColumns_kept |].
  split; [now apply mapM_Some |].
  split.
  - intros Hnull. apply list_elem_of_lookup in Hnull as [k Hk].
    destruct (Forall2_lookup_r _ _ _ _ _ Hkept Hk) as (t & Htk & Hmake).
    apply makeCol_NilValue in Hmake.
    assert (t ∈ filter (λ t, t ≠ COL_SKIP) types) as Hin
        by (apply list_elem_of_lookup; now exists k).
    apply list_elem_of_filter in Hin as [Hskip Hin].
    destruct Hmake as [-> | ->]; [assumption | contradiction].
  - intros Hblank.
    assert (COL_BLANK ∈ filter (λ t, t ≠ COL_SKIP) types) as Hin
        by (apply list_elem_of_filter; split; [discriminate | assumption]).
    apply list_elem_of_lookup in Hin as [k Hk].
    destruct (Forall2_lookup_l _ _ _ _ _ Hkept Hk) as (c & Hck & Hmake).
    cbn in Hmake. injection Hmake as <-.
    apply list_elem_of_lookup. now exists k.
Qed.

Lemma makeCol_removeSkippedColumns_witness :
  exists (cols out : list Rcpp.RObject) (names_out : list string),
    mapM (λ t, makeCol t 2) [COL_BLANK; COL_SKIP; COL_TEXT] = Some cols /\
    removeSkippedColumns Rcpp.R_NilValue cols ["a"; "b"; "c"]
      [COL_BLANK; COL_SKIP; COL_TEXT] = Some (out, names_out) /\
    mapM (λ t, makeCol t 2)
      (filter (λ t, t ≠ COL_SKIP) [COL_BLANK; COL_SKIP; COL_TEXT]) = Some out /\
    (Rcpp.R_NilValue ∈ out <-> COL_BLANK ∈ [COL_BLANK; COL_SKIP; COL_TEXT]).
Proof.
  apply (makeCol_removeSkippedColumns 2 ["a"; "b"; "c"] [COL_BLANK; COL_SKIP; COL_TEXT]).
  - lia.
  - reflexivity.
Defined.

Example makeCol_removeSkippedColumns_blank_stays :
  removeSkippedColumns Rcpp.R_NilValue
    [Rcpp.R_NilValue; Rcpp.R_NilValue; Rcpp.CharacterVector [None; None] []]
    ["a"; "b"; "c"] [COL_BLANK; COL_SKIP; COL_TEXT]
  = Some ([Rcpp.R_NilValue; Rcpp.CharacterVector [None; None] []], ["a"; "c"]).
Proof. reflexivity. Qed.
